(** * member_app: expiry calculation, query filters, creation, deletion, CSV export

    A shallow embedding of [member_app.py], a single-file Flask application
    over one SQLAlchemy table (SQLite), followed by the properties of its
    expiry calculator, its query filter builder and its three routes.

    Layout:
    - [PyStr]    Python [str] values as sequences of code points;
    - [PyDate]   [datetime.date] as proleptic Gregorian ordinals, with the
                 range check of date arithmetic;
    - [Strptime] a parser for the format [%Y-%m-%d], to run examples;
    - [Sql]      three-valued SQL conditions and SQLite's [LIKE];
    - [Csv]      [csv.writer] with the default (excel) dialect;
    - the application itself: [Member], queries over its table,
      [DAYS_MAP], [parse_date], [auto_expiry], [apply_filters], [index],
      [delete_member], [export_csv].  The library's date parser, the
      current date and the current time are variables of the section;
    - the tables of the specification and sample data;
    - the properties. *)

From Stdlib Require Import ZArith List Bool Lia String Ascii.
From Stdlib Require Import Sorting.Permutation Sorting.Sorted.
From Stdlib Require Import DecimalString Btauto.
Import ListNotations.

Local Open Scope Z_scope.

(** ** Python strings *)

Module PyStr.

(** A Python [str] is a sequence of Unicode code points. *)
Definition pystr := list Z.

Fixpoint eqb (a b : pystr) : bool :=
  match a, b with
  | [], [] => true
  | x :: a', y :: b' => (x =? y) && eqb a' b'
  | _, _ => false
  end.

(** Source literals are written as UTF-8 text; [py] decodes them to code
    points, the way the interpreter reads a [utf-8] source file. *)
Fixpoint utf8_decode (bs : list Z) : pystr :=
  match bs with
  | [] => []
  | b0 :: r0 =>
      if b0 <? 128 then b0 :: utf8_decode r0
      else match r0 with
      | [] => [b0]
      | b1 :: r1 =>
          if b0 <? 224 then
            ((b0 - 192) * 64 + (b1 - 128)) :: utf8_decode r1
          else match r1 with
          | [] => [b0; b1]
          | b2 :: r2 =>
              if b0 <? 240 then
                ((b0 - 224) * 4096 + (b1 - 128) * 64 + (b2 - 128))
                  :: utf8_decode r2
              else match r2 with
              | [] => [b0; b1; b2]
              | b3 :: r3 =>
                  ((b0 - 240) * 262144 + (b1 - 128) * 4096
                   + (b2 - 128) * 64 + (b3 - 128)) :: utf8_decode r3
              end
          end
      end
  end.

Definition bytes_of (s : string) : list Z :=
  map (fun a => Z.of_nat (nat_of_ascii a)) (list_ascii_of_string s).

Definition py (s : string) : pystr := utf8_decode (bytes_of s).

(** [str.isspace] for one code point (the interpreter's whitespace table). *)
Definition isspace (c : Z) : bool :=
  ((9 <=? c) && (c <=? 13)) || ((28 <=? c) && (c <=? 32))
  || (c =? 133) || (c =? 160) || (c =? 5760)
  || ((8192 <=? c) && (c <=? 8202))
  || (c =? 8232) || (c =? 8233) || (c =? 8239) || (c =? 8287)
  || (c =? 12288).

Fixpoint lstrip (s : pystr) : pystr :=
  match s with
  | c :: s' => if isspace c then lstrip s' else s
  | [] => []
  end.

Definition rstrip (s : pystr) : pystr := rev (lstrip (rev s)).

(** [s.strip()] *)
Definition strip (s : pystr) : pystr := rstrip (lstrip s).

(** [x or ''] for [x : Optional[str]]. *)
Definition or_empty (x : option pystr) : pystr :=
  match x with Some s => s | None => [] end.

(** [x or None] for [x : str]: the empty string is falsy. *)
Definition or_None (s : pystr) : option pystr :=
  match s with [] => None | _ => Some s end.

Fixpoint startswith (p s : pystr) : bool :=
  match p, s with
  | [], _ => true
  | x :: p', y :: s' => (x =? y) && startswith p' s'
  | _ :: _, [] => false
  end.

(** [s.replace(old, new)] for a non-empty [old]: occurrences are replaced
    from left to right without overlap.  [skip] counts the code points of
    a matched occurrence that are still to be dropped. *)
Fixpoint replace_from (old new : pystr) (skip : nat) (s : pystr) : pystr :=
  match s with
  | [] => []
  | c :: s' =>
      match skip with
      | S k => replace_from old new k s'
      | O =>
          if startswith old s
          then new ++ replace_from old new (Nat.pred (List.length old)) s'
          else c :: replace_from old new O s'
      end
  end.

(** With an empty [old], Python inserts [new] before every code point and
    at the end. *)
Definition replace (old new s : pystr) : pystr :=
  match old with
  | [] => flat_map (fun c => new ++ [c]) s ++ new
  | _ :: _ => replace_from old new O s
  end.

(** [str(n)] for an integer. *)
Definition str_of_Z (n : Z) : pystr :=
  bytes_of (NilZero.string_of_int (Z.to_int n)).

(** [c in s] for a code point. *)
Definition mem (c : Z) (s : pystr) : bool := existsb (Z.eqb c) s.

(** The number of bytes of [s] in UTF-8. *)
Definition utf8_width (c : Z) : Z :=
  if c <? 128 then 1 else if c <? 2048 then 2 else if c <? 65536 then 3 else 4.

Definition utf8_size (s : pystr) : Z :=
  fold_right (fun c n => utf8_width c + n) 0 s.

Definition NUL : Z := 0.
Definition LF : Z := 10.
Definition CR : Z := 13.
Definition SPACE : Z := 32.
Definition BACKSLASH : Z := 92.

End PyStr.

Import PyStr.

(** ** Exceptions *)

Inductive exn : Type :=
| ValueError
| OverflowError
| NotFound.            (* werkzeug.exceptions.NotFound, HTTP 404 *)

Inductive outcome (A : Type) : Type :=
| Ok (a : A)
| Raise (e : exn).

Arguments Ok {A} a.
Arguments Raise {A} e.

Definition bind {A B : Type} (m : outcome A) (k : A -> outcome B) : outcome B :=
  match m with
  | Ok a => k a
  | Raise e => Raise e
  end.

Notation "x <- m ;; k" := (bind m (fun x => k))
  (at level 61, m at next level, right associativity).

(** ** Dates *)

Module PyDate.

(** A [datetime.date] is represented by its proleptic Gregorian ordinal
    ([date.toordinal()]): 1 is 0001-01-01 and [MAXORDINAL] is 9999-12-31.
    Comparison of dates is comparison of ordinals. *)
Definition date := Z.

Definition MINYEAR : Z := 1.
Definition MAXYEAR : Z := 9999.
Definition MAXORDINAL : Z := 3652059.

Definition valid_date (d : date) : Prop := 1 <= d <= MAXORDINAL.

Definition is_leap (year : Z) : bool :=
  (year mod 4 =? 0) && (negb (year mod 100 =? 0) || (year mod 400 =? 0)).

Definition DAYS_IN_MONTH : list Z :=
  [-1; 31; 28; 31; 30; 31; 30; 31; 31; 30; 31; 30; 31].

Definition DAYS_BEFORE_MONTH : list Z :=
  [-1; 0; 31; 59; 90; 120; 151; 181; 212; 243; 273; 304; 334].

Definition days_before_year (year : Z) : Z :=
  let y := year - 1 in y * 365 + y / 4 - y / 100 + y / 400.

Definition days_in_month (year month : Z) : Z :=
  if (month =? 2) && is_leap year then 29
  else nth (Z.to_nat month) DAYS_IN_MONTH 0.

Definition days_before_month (year month : Z) : Z :=
  nth (Z.to_nat month) DAYS_BEFORE_MONTH 0
  + (if (2 <? month) && is_leap year then 1 else 0).

Definition ymd2ord (year month day : Z) : Z :=
  days_before_year year + days_before_month year month + day.

Definition DI400Y : Z := 146097.
Definition DI100Y : Z := 36524.
Definition DI4Y : Z := 1461.

Definition ord2ymd (ordinal : Z) : Z * Z * Z :=
  let n := ordinal - 1 in
  let n400 := n / DI400Y in
  let n := n mod DI400Y in
  let year := n400 * 400 + 1 in
  let n100 := n / DI100Y in
  let n := n mod DI100Y in
  let n4 := n / DI4Y in
  let n := n mod DI4Y in
  let n1 := n / 365 in
  let n := n mod 365 in
  let year := year + n100 * 100 + n4 * 4 + n1 in
  if (n1 =? 4) || (n100 =? 4) then (year - 1, 12, 31)
  else
    let leapyear := (n1 =? 3) && (negb (n4 =? 24) || (n100 =? 3)) in
    let month := Z.shiftr (n + 50) 5 in
    let preceding :=
      nth (Z.to_nat month) DAYS_BEFORE_MONTH 0
      + (if (2 <? month) && leapyear then 1 else 0) in
    if n <? preceding then
      let month := month - 1 in
      let preceding :=
        preceding
        - (nth (Z.to_nat month) DAYS_IN_MONTH 0
           + (if (month =? 2) && leapyear then 1 else 0)) in
      (year, month, n - preceding + 1)
    else (year, month, n - preceding + 1).

(** [date(year, month, day)]: [ValueError] outside the calendar. *)
Definition mkdate (year month day : Z) : outcome date :=
  if (MINYEAR <=? year) && (year <=? MAXYEAR)
     && (1 <=? month) && (month <=? 12)
     && (1 <=? day) && (day <=? days_in_month year month)
  then Ok (ymd2ord year month day)
  else Raise ValueError.

(** [d + timedelta(days=n)]: the sum of the ordinals, [OverflowError] when
    it leaves the range of [date]. *)
Definition add_days (d : date) (n : Z) : outcome date :=
  let o := d + n in
  if (0 <? o) && (o <=? MAXORDINAL) then Ok o else Raise OverflowError.

(** Decimal rendering padded with zeros to [width] digits ([%0wd]). *)
Definition zpad (width : nat) (n : Z) : pystr :=
  let s := str_of_Z n in
  repeat 48 (width - List.length s) ++ s.

(** [d.isoformat()] *)
Definition isoformat (d : date) : pystr :=
  let '(y, m, dd) := ord2ymd d in
  zpad 4 y ++ py "-" ++ zpad 2 m ++ py "-" ++ zpad 2 dd.

(** A [datetime.datetime]: a date and a time of day. *)
Record datetime : Type := {
  dt_date : date;
  dt_hour : Z;
  dt_minute : Z;
  dt_second : Z;
  dt_microsecond : Z
}.

(** [t.isoformat(timespec='seconds')] *)
Definition isoformat_seconds (t : datetime) : pystr :=
  isoformat (dt_date t) ++ py "T" ++ zpad 2 (dt_hour t) ++ py ":"
  ++ zpad 2 (dt_minute t) ++ py ":" ++ zpad 2 (dt_second t).

End PyDate.

Import PyDate.


(** A model of [datetime.strptime(s, "%Y-%m-%d").date()] on ASCII input,
    used to run the application on concrete requests.  It follows the
    regular expression the library builds for this format: four digits,
    [-], a month [1[0-2]|0[1-9]|[1-9]], [-], a day
    [3[0-1]|[1-2]\d|0[1-9]|[1-9]| [1-9]], and nothing after it; the
    numbers must then form a date of the calendar.  The library also
    accepts other Unicode decimal digits, which this model rejects. *)
Module Strptime.

Definition digit (c : Z) : option Z :=
  if (48 <=? c) && (c <=? 57) then Some (c - 48) else None.

Definition in_range (lo hi c : Z) : bool := (lo <=? c) && (c <=? hi).

Definition DASH : Z := 45.

Definition parse_year (s : pystr) : option (Z * pystr) :=
  match s with
  | a :: b :: c :: d :: r =>
      match digit a, digit b, digit c, digit d with
      | Some a, Some b, Some c, Some d =>
          Some (a * 1000 + b * 100 + c * 10 + d, r)
      | _, _, _, _ => None
      end
  | _ => None
  end.

(** The month and the dash after it; the alternatives are tried in the
    order of the regular expression. *)
Definition parse_month_dash (s : pystr) : option (Z * pystr) :=
  match s with
  | a :: b :: c :: r =>
      if (a =? 49) && in_range 48 50 b && (c =? DASH) then Some (10 + (b - 48), r)
      else if (a =? 48) && in_range 49 57 b && (c =? DASH) then Some (b - 48, r)
      else if in_range 49 57 a && (b =? DASH) then Some (a - 48, c :: r)
      else None
  | [a; b] =>
      if in_range 49 57 a && (b =? DASH) then Some (a - 48, []) else None
  | _ => None
  end.

(** The day, which must end the string. *)
Definition parse_day_end (s : pystr) : option Z :=
  match s with
  | [a; b] =>
      if (a =? 51) && in_range 48 49 b then Some (30 + (b - 48))
      else if in_range 49 50 a && in_range 48 57 b
           then Some ((a - 48) * 10 + (b - 48))
      else if (a =? 48) && in_range 49 57 b then Some (b - 48)
      else if (a =? 32) && in_range 49 57 b then Some (b - 48)
      else None
  | [a] => if in_range 49 57 a then Some (a - 48) else None
  | _ => None
  end.

Definition strptime_ascii (s : pystr) : outcome date :=
  match parse_year s with
  | Some (y, c :: r) =>
      if c =? DASH then
        match parse_month_dash r with
        | Some (m, r') =>
            match parse_day_end r' with
            | Some d => mkdate y m d
            | None => Raise ValueError
            end
        | None => Raise ValueError
        end
      else Raise ValueError
  | _ => Raise ValueError
  end.

End Strptime.

(** ** SQL conditions and LIKE *)

Module Sql.

(** The value of a condition: true, false, or NULL ([None]). *)
Definition tri := option bool.

Definition sql_or (a b : tri) : tri :=
  match a, b with
  | Some true, _ => Some true
  | _, Some true => Some true
  | Some false, Some false => Some false
  | _, _ => None
  end.

Definition sql_and (a b : tri) : tri :=
  match a, b with
  | Some false, _ => Some false
  | _, Some false => Some false
  | Some true, Some true => Some true
  | _, _ => None
  end.

(** [or_(c1, ..., cn)] and [and_(c1, ..., cn)] *)
Definition or_ (cs : list tri) : tri := fold_right sql_or (Some false) cs.
Definition and_ (cs : list tri) : tri := fold_right sql_and (Some true) cs.

(** A row is selected by [WHERE c] when [c] is true; false and NULL
    both drop it. *)
Definition holds (c : tri) : bool :=
  match c with Some true => true | _ => false end.

(** [col == None] is rendered [col IS NULL], [col != None] is
    [col IS NOT NULL]; neither is ever NULL. *)
Definition is_null {A : Type} (col : option A) : tri :=
  match col with None => Some true | Some _ => Some false end.

Definition is_not_null {A : Type} (col : option A) : tri :=
  match col with None => Some false | Some _ => Some true end.

(** Comparisons of a date column with a bound parameter.  Dates are
    stored as zero-padded ISO text, whose order is the order of the
    dates; a NULL column makes the comparison NULL. *)
Definition ge (col : option date) (v : date) : tri :=
  option_map (fun d => v <=? d) col.

Definition le (col : option date) (v : date) : tri :=
  option_map (fun d => d <=? v) col.

Definition lt (col : option date) (v : date) : tri :=
  option_map (fun d => d <? v) col.

(** [col == v] on text. *)
Definition eq_text (col : option pystr) (v : pystr) : tri :=
  option_map (fun s => PyStr.eqb s v) col.

(** SQLite folds case for the 26 ASCII letters only, in [lower()] and in
    [LIKE] alike. *)
Definition lower_cp (c : Z) : Z :=
  if (65 <=? c) && (c <=? 90) then c + 32 else c.

Definition lower (s : pystr) : pystr := map lower_cp s.

Definition PERCENT : Z := 37.
Definition UNDERSCORE : Z := 95.

(** The comparison behind LIKE without an ESCAPE clause: [%] stands for
    any run of code points, also an empty one, [_] for exactly one code
    point, any other code point for itself up to ASCII case. *)
Fixpoint pattern_compare (pat : pystr) : pystr -> bool :=
  match pat with
  | [] => fun s => match s with [] => true | _ :: _ => false end
  | p :: pat' =>
      if p =? PERCENT then
        fix skip (s : pystr) : bool :=
          pattern_compare pat' s
          || match s with [] => false | _ :: s' => skip s' end
      else if p =? UNDERSCORE then
        fun s => match s with [] => false | _ :: s' => pattern_compare pat' s' end
      else
        fun s =>
          match s with
          | [] => false
          | c :: s' => (lower_cp p =? lower_cp c) && pattern_compare pat' s'
          end
  end.

(** LIKE reads its two texts as C strings: what follows the first NUL of
    the pattern or of the text is not looked at. *)
Fixpoint cstr (s : pystr) : pystr :=
  match s with
  | [] => []
  | c :: s' => if c =? NUL then [] else c :: cstr s'
  end.

(** [s LIKE pat], for a pattern SQLite accepts. *)
Definition like (pat s : pystr) : bool :=
  pattern_compare (cstr pat) (cstr s).

(** SQLite refuses a LIKE whose pattern is longer than this number of
    bytes: the statement then fails with an error, which [like] does not
    show.  Properties of the text query are stated for patterns within
    the limit. *)
Definition LIKE_PATTERN_LIMIT : Z := 50000.

(** [col.ilike(pat)] is rendered [lower(col) LIKE lower(pat)]. *)
Definition ilike (col : option pystr) (pat : pystr) : tri :=
  option_map (fun s => like (lower pat) (lower s)) col.

End Sql.

(** ** csv.writer, default dialect *)

Module Csv.

Inductive cell : Type :=
| CInt (n : Z)
| CStr (s : pystr).

Definition cell_text (c : cell) : pystr :=
  match c with
  | CInt n => str_of_Z n
  | CStr s => s
  end.

Definition COMMA : Z := 44.
Definition DQUOTE : Z := 34.

(** QUOTE_MINIMAL: a field is quoted when it holds the delimiter, the
    quote character or a character of the line terminator. *)
Definition needs_quotes (s : pystr) : bool :=
  existsb (fun c => (c =? COMMA) || (c =? DQUOTE) || (c =? CR) || (c =? LF)) s.

Definition quoted (s : pystr) : pystr :=
  DQUOTE :: flat_map (fun c => if c =? DQUOTE then [DQUOTE; DQUOTE] else [c]) s
  ++ [DQUOTE].

Definition field (s : pystr) : pystr :=
  if needs_quotes s then quoted s else s.

Fixpoint join (sep : Z) (fs : list pystr) : pystr :=
  match fs with
  | [] => []
  | [f] => f
  | f :: fs' => f ++ sep :: join sep fs'
  end.

(** [writer.writerow(cells)]: the text appended to the output.  A row of
    one empty field is written as a pair of quotes. *)
Definition writerow (cells : list cell) : pystr :=
  match map cell_text cells with
  | [ [] ] => [DQUOTE; DQUOTE; CR; LF]
  | fs => join COMMA (map field fs) ++ [CR; LF]
  end.

End Csv.

(** ** The application *)

(** *** The model: one row of table [member] *)

Record Member : Type := {
  id : Z;
  name : pystr;
  contact : option pystr;
  membership_type : pystr;
  join_date : date;
  expiry_date : option date;
  source : option pystr;
  note : option pystr;
  created_at : option datetime;
  updated_at : option datetime
}.

(** *** Queries over the table *)

Inductive ordering : Type :=
| IdAsc       (* Member.id.asc() *)
| IdDesc.     (* Member.id.desc() *)

(** A [Query]: the conditions given to [filter], in the order they were
    added, and the ordering given to [order_by], if any. *)
Record Query : Type := {
  criteria : list (Member -> Sql.tri);
  order : option ordering
}.

(** [Member.query] *)
Definition Member_query : Query := {| criteria := []; order := None |}.

Definition order_by (q : Query) (o : ordering) : Query :=
  {| criteria := criteria q; order := Some o |}.

Definition filter_ (q : Query) (c : Member -> Sql.tri) : Query :=
  {| criteria := criteria q ++ [c]; order := order q |}.

(** The WHERE clause is the conjunction of the conditions. *)
Definition selects (q : Query) (m : Member) : bool :=
  Sql.holds (Sql.and_ (map (fun c => c m) (criteria q))).

Definition before (o : ordering) (a b : Member) : bool :=
  match o with
  | IdAsc => id a <=? id b
  | IdDesc => id b <=? id a
  end.

Fixpoint place (o : ordering) (m : Member) (sorted : list Member) : list Member :=
  match sorted with
  | [] => [m]
  | x :: rest => if before o m x then m :: sorted else x :: place o m rest
  end.

Definition ordered (o : option ordering) (rows : list Member) : list Member :=
  match o with
  | Some o => fold_right (place o) [] rows
  | None => rows
  end.

(** [precedes o a b]: [a] may come before [b] under [o]. *)
Definition precedes (o : ordering) (a b : Member) : Prop :=
  before o a b = true.

(** [query.all()] against the rows of the table. *)
Definition all (table : list Member) (q : Query) : list Member :=
  ordered (order q) (filter (selects q) table).

(** [Member.query.get(i)]: the row with primary key [i]. *)
Definition get (table : list Member) (i : Z) : option Member :=
  find (fun m => id m =? i) table.

(** The primary key SQLite gives a new row: one more than the largest
    key in use, 1 in an empty table. *)
Definition next_id (table : list Member) : Z :=
  fold_right (fun m acc => Z.max (id m) acc) 0 table + 1.

(** *** Request data *)

(** [request.args] and [request.form]: keys with their values, in the
    order received.  [get] gives the first value of a key. *)
Definition MultiDict := list (pystr * pystr).

Fixpoint md_get (d : MultiDict) (k : pystr) : option pystr :=
  match d with
  | [] => None
  | (k', v) :: d' => if PyStr.eqb k' k then Some v else md_get d' k
  end.

(** The same data without key [k]. *)
Definition md_remove (k : pystr) (d : MultiDict) : MultiDict :=
  filter (fun kv => negb (PyStr.eqb (fst kv) k)) d.

(** *** Utilities *)

Definition DAYS_MAP : list (pystr * Z) :=
  [(py "월간", 30); (py "분기", 90); (py "연간", 365); (py "상자텃밭만", 14)].

(** [d.get(k)] on a dict literal. *)
Fixpoint dict_get (d : list (pystr * Z)) (k : pystr) : option Z :=
  match d with
  | [] => None
  | (k', v) :: d' => if PyStr.eqb k' k then Some v else dict_get d' k
  end.

Definition auto_expiry (join_date : option date) (membership_type : pystr)
  : outcome (option date) :=
  match join_date with
  | None => Ok None
  | Some j =>
      match dict_get DAYS_MAP membership_type with
      | Some days =>
          if days =? 0 then Ok None
          else d <- add_days j days ;; Ok (Some d)
      | None => Ok None
      end
  end.

(** [expiry_input or auto_expiry(join_date, membership_type)], the
    expression [index] stores as the expiry date (the specification's
    computeExpiry): the right operand is evaluated only when the left one
    is [None]. *)
Definition compute_expiry (join_date : option date) (membership_type : pystr)
    (expiry_input : option date) : outcome (option date) :=
  match expiry_input with
  | Some e => Ok (Some e)
  | None => auto_expiry join_date membership_type
  end.

(** *** Responses and the state around a request *)

Inductive method : Type := GET | HEAD | POST.

Inductive response : Type :=
| Redirect (endpoint : pystr) (values : MultiDict)
    (* redirect(url_for(endpoint, **values)): [values] is what is handed
       to **, which passes on the first value of each key *)
| Render (members : list Member) (today : date) (messages : list pystr)
    (* render_template_string(INDEX_HTML, members=..., today=...); the
       base template shows and clears the flashed messages *)
| SendFile (data : pystr).
    (* send_file(...) of the utf-8-sig encoding of [data] *)

(** The table and the queue of flashed messages. *)
Record world : Type := {
  db : list Member;
  flashes : list pystr
}.

Definition flash (msg : pystr) (w : world) : world :=
  {| db := db w; flashes := flashes w ++ [msg] |}.

Definition MSG_REQUIRED : pystr := py "이름, 멤버십, 가입일은 필수입니다.".
Definition MSG_CREATED : pystr := py "등록되었습니다.".
Definition MSG_DELETED : pystr := py "삭제되었습니다.".

(** The cells [export_csv] writes for one member. *)
Definition export_row (m : Member) : list Csv.cell :=
  [ Csv.CInt (id m);
    Csv.CStr (name m);
    Csv.CStr (or_empty (contact m));
    Csv.CStr (membership_type m);
    Csv.CStr (isoformat (join_date m));
    Csv.CStr (match expiry_date m with Some d => isoformat d | None => [] end);
    Csv.CStr (or_empty (source m));
    (* [.replace('\\n',' ')]: the first argument is a backslash followed
       by the letter n *)
    Csv.CStr (replace [BACKSLASH; 110] [SPACE] (or_empty (note m)));
    Csv.CStr (match created_at m with Some t => isoformat_seconds t | None => [] end);
    Csv.CStr (match updated_at m with Some t => isoformat_seconds t | None => [] end) ].

Definition CSV_HEADER : list Csv.cell :=
  map (fun s => Csv.CStr (py s))
    ["id"; "name"; "contact"; "membership_type"; "join_date"; "expiry_date";
     "source"; "note"; "created_at"; "updated_at"]%string.

Section App.

(** [datetime.strptime(s, "%Y-%m-%d").date()], the current date
    ([date.today()]) and the current time ([datetime.utcnow()]). *)
Variable strptime : pystr -> outcome date.
Variable today : date.
Variable utcnow : datetime.

Definition parse_date (s : option pystr) : option date :=
  match s with
  | None => None
  | Some [] => None
  | Some s =>
      match strptime s with
      | Ok d => Some d
      | Raise _ => None
      end
  end.

Definition apply_filters (args : MultiDict) (query : Query) : Query :=
  let q := strip (or_empty (md_get args (py "q"))) in
  let mtype := strip (or_empty (md_get args (py "membership_type"))) in
  let expired := strip (or_empty (md_get args (py "expired"))) in
  let join_from := parse_date (md_get args (py "join_from")) in
  let join_to := parse_date (md_get args (py "join_to")) in
  let exp_from := parse_date (md_get args (py "exp_from")) in
  let exp_to := parse_date (md_get args (py "exp_to")) in
  let query :=
    match q with
    | [] => query
    | _ :: _ =>
        let like := py "%" ++ q ++ py "%" in
        filter_ query (fun m =>
          Sql.or_ [ Sql.ilike (Some (name m)) like;
                    Sql.ilike (contact m) like;
                    Sql.ilike (source m) like;
                    Sql.ilike (note m) like ])
    end in
  let query :=
    match mtype with
    | [] => query
    | _ :: _ => filter_ query (fun m => Sql.eq_text (Some (membership_type m)) mtype)
    end in
  let query :=
    if PyStr.eqb expired (py "active") then
      filter_ query (fun m =>
        Sql.or_ [Sql.is_null (expiry_date m); Sql.ge (expiry_date m) today])
    else if PyStr.eqb expired (py "expired") then
      filter_ query (fun m =>
        Sql.and_ [Sql.is_not_null (expiry_date m); Sql.lt (expiry_date m) today])
    else query in
  let query :=
    match join_from with
    | Some d => filter_ query (fun m => Sql.ge (Some (join_date m)) d)
    | None => query
    end in
  let query :=
    match join_to with
    | Some d => filter_ query (fun m => Sql.le (Some (join_date m)) d)
    | None => query
    end in
  let query :=
    match exp_from with
    | Some d => filter_ query (fun m => Sql.ge (expiry_date m) d)
    | None => query
    end in
  let query :=
    match exp_to with
    | Some d => filter_ query (fun m => Sql.le (expiry_date m) d)
    | None => query
    end in
  query.

(** The conditions [apply_filters] adds, one per criterion, as
    predicates on a member. *)

(** The normalised text of a criterion. *)
Definition criterion (args : MultiDict) (key : string) : pystr :=
  strip (or_empty (md_get args (py key))).

(** The bound a date criterion stands for, if any. *)
Definition bound (args : MultiDict) (key : string) : option date :=
  parse_date (md_get args (py key)).

Definition text_condition (q : pystr) (m : Member) : Sql.tri :=
  let like := py "%" ++ q ++ py "%" in
  Sql.or_ [ Sql.ilike (Some (name m)) like;
            Sql.ilike (contact m) like;
            Sql.ilike (source m) like;
            Sql.ilike (note m) like ].

Definition keeps_text (args : MultiDict) (m : Member) : bool :=
  match criterion args "q" with
  | [] => true
  | q => Sql.holds (text_condition q m)
  end.

Definition keeps_class (args : MultiDict) (m : Member) : bool :=
  match criterion args "membership_type" with
  | [] => true
  | mtype => PyStr.eqb (membership_type m) mtype
  end.

Definition keeps_state (args : MultiDict) (m : Member) : bool :=
  if PyStr.eqb (criterion args "expired") (py "active") then
    match expiry_date m with None => true | Some d => today <=? d end
  else if PyStr.eqb (criterion args "expired") (py "expired") then
    match expiry_date m with None => false | Some d => d <? today end
  else true.

Definition keeps_join_from (args : MultiDict) (m : Member) : bool :=
  match bound args "join_from" with Some b => b <=? join_date m | None => true end.

Definition keeps_join_to (args : MultiDict) (m : Member) : bool :=
  match bound args "join_to" with Some b => join_date m <=? b | None => true end.

Definition keeps_exp_from (args : MultiDict) (m : Member) : bool :=
  match bound args "exp_from", expiry_date m with
  | Some b, Some d => b <=? d
  | Some _, None => false
  | None, _ => true
  end.

Definition keeps_exp_to (args : MultiDict) (m : Member) : bool :=
  match bound args "exp_to", expiry_date m with
  | Some b, Some d => d <=? b
  | Some _, None => false
  | None, _ => true
  end.

(** The condition of the criterion read from key [key]. *)
Definition keeps (key : string) (args : MultiDict) (m : Member) : bool :=
  if String.eqb key "q" then keeps_text args m
  else if String.eqb key "membership_type" then keeps_class args m
  else if String.eqb key "expired" then keeps_state args m
  else if String.eqb key "join_from" then keeps_join_from args m
  else if String.eqb key "join_to" then keeps_join_to args m
  else if String.eqb key "exp_from" then keeps_exp_from args m
  else if String.eqb key "exp_to" then keeps_exp_to args m
  else true.

(** [db.session.add(m); db.session.commit()] for a new member. *)
Definition add_member (w : world) (name : pystr) (contact : option pystr)
    (membership_type : pystr) (join_date : date) (expiry_date : option date)
    (source note : option pystr) : world :=
  {| db := db w ++
       [ {| id := next_id (db w);
            name := name;
            contact := contact;
            membership_type := membership_type;
            join_date := join_date;
            expiry_date := expiry_date;
            source := source;
            note := note;
            created_at := Some utcnow;
            updated_at := Some utcnow |} ];
     flashes := flashes w |}.

(** Route [/], methods GET and POST.  The result is the response, or the
    exception that leaves the view, and the state after the request.
    The response is that of a request whose query [url_for] accepts
    ([plain_query] below) and whose text query gives a LIKE pattern
    within [Sql.LIKE_PATTERN_LIMIT]; the state is the one the request
    leaves in any case. *)
Definition index (meth : method) (args form : MultiDict) (w : world)
  : outcome response * world :=
  match meth with
  | POST =>
      let name := strip (or_empty (md_get form (py "name"))) in
      let contact := strip (or_empty (md_get form (py "contact"))) in
      let membership_type := strip (or_empty (md_get form (py "membership_type"))) in
      let join_date := parse_date (md_get form (py "join_date")) in
      let expiry_input := parse_date (md_get form (py "expiry_date")) in
      match compute_expiry join_date membership_type expiry_input with
      | Raise e => (Raise e, w)
      | Ok expiry_date =>
          let source := strip (or_empty (md_get form (py "source"))) in
          let note := strip (or_empty (md_get form (py "note"))) in
          match name, membership_type, join_date with
          | _ :: _, _ :: _, Some jd =>
              let w := add_member w name (or_None contact) membership_type jd
                         expiry_date (or_None source) (or_None note) in
              (Ok (Redirect (py "index") args), flash MSG_CREATED w)
          | _, _, _ =>
              (Ok (Redirect (py "index") []), flash MSG_REQUIRED w)
          end
      end
  | _ =>
      let query := apply_filters args (order_by Member_query IdDesc) in
      let members := all (db w) query in
      (Ok (Render members today (flashes w)), {| db := db w; flashes := [] |})
  end.

(** The largest integer SQLite stores and accepts as a parameter. *)
Definition SQLITE_MAX_INTEGER : Z := 2 ^ 63 - 1.

(** Route [/delete/<int:member_id>], method POST; the converter accepts
    any run of digits.  [get_or_404] binds the id to a SELECT.  No row of
    a SQLite table has an id above [SQLITE_MAX_INTEGER], and binding such
    an id fails with [OverflowError] before any row is looked up; an id
    within the range that no row has gives the not-found failure. *)
Definition delete_member (member_id : Z) (args : MultiDict) (w : world)
  : outcome response * world :=
  match get (db w) member_id with
  | None =>
      if SQLITE_MAX_INTEGER <? member_id
      then (Raise OverflowError, w)    (* the bind of the parameter *)
      else (Raise NotFound, w)         (* get_or_404 *)
  | Some m =>
      let w := {| db := filter (fun x => negb (id x =? id m)) (db w);
                  flashes := flashes w |} in
      (Ok (Redirect (py "index") args), flash MSG_DELETED w)
  end.

(** The rows [export_csv] reads. *)
Definition export_rows (args : MultiDict) (w : world) : list Member :=
  all (db w) (apply_filters args (order_by Member_query IdAsc)).

(** Route [/export.csv], method GET. *)
Definition export_csv (args : MultiDict) (w : world)
  : outcome response * world :=
  let rows := export_rows args w in
  let data :=
    Csv.writerow CSV_HEADER ++ flat_map (fun m => Csv.writerow (export_row m)) rows in
  (Ok (SendFile data), w).

End App.

(** *** The listing template: what a row shows for one member *)

(** [(m.expiry_date - today).days if m.expiry_date else None] *)
Definition days_left (today : date) (m : Member) : option Z :=
  match expiry_date m with
  | Some d => Some (d - today)
  | None => None
  end.

Definition EXPIRED_LABEL : pystr := py "만료".
Definition VALID_LABEL : pystr := py "유효".

(** ['만료' if (m.expiry_date and m.expiry_date < today) else '유효'] *)
Definition state (today : date) (m : Member) : pystr :=
  match expiry_date m with
  | Some d => if d <? today then EXPIRED_LABEL else VALID_LABEL
  | None => VALID_LABEL
  end.

(** The state cell: the classes and the text of its span. *)
Definition state_cell (state : pystr) : pystr * pystr :=
  if PyStr.eqb state EXPIRED_LABEL
  then (py "inline-block px-2 py-0.5 rounded bg-red-100 text-red-700 text-xs",
        py "<만료>")
  else (py "inline-block px-2 py-0.5 rounded bg-emerald-100 text-emerald-700 text-xs",
        py "유효").

Definition RED : pystr := py "text-red-600 font-semibold".
Definition ORANGE : pystr := py "text-orange-500 font-semibold".
Definition EMERALD : pystr := py "text-emerald-600 font-semibold".

(** The D-Day cell: nothing without [days_left], else the classes and the
    text of its span.  The first branch writes [D] and the number, the
    others [D-] and the number. *)
Definition dday_cell (days_left : option Z) : option (pystr * pystr) :=
  match days_left with
  | None => None
  | Some n =>
      if n <? 0 then Some (RED, py "D" ++ str_of_Z n)
      else if n <=? 7 then Some (RED, py "D-" ++ str_of_Z n)
      else if n <=? 30 then Some (ORANGE, py "D-" ++ str_of_Z n)
      else Some (EMERALD, py "D-" ++ str_of_Z n)
  end.

(** *** The routes together *)

Inductive request : Type :=
| ReqIndex (meth : method) (args form : MultiDict)      (* / *)
| ReqDelete (member_id : Z) (args : MultiDict)          (* /delete/<id> *)
| ReqExport (args : MultiDict).                         (* /export.csv *)

(** One request, served on date [today] at time [utcnow]. *)
Definition handle (strptime : pystr -> outcome date) (today : date)
    (utcnow : datetime) (r : request) (w : world) : outcome response * world :=
  match r with
  | ReqIndex meth args form => index strptime today utcnow meth args form w
  | ReqDelete member_id args => delete_member member_id args w
  | ReqExport args => export_csv strptime today args w
  end.

(** The states the application reaches from an empty table. *)
Inductive reachable (strptime : pystr -> outcome date) : world -> Prop :=
| reach_start : reachable strptime {| db := []; flashes := [] |}
| reach_step (w : world) (today : date) (utcnow : datetime) (r : request) :
    reachable strptime w ->
    reachable strptime (snd (handle strptime today utcnow r w)).

(** [url_for(endpoint, **values)] has parameters of its own; a query key
    of one of these names is bound to the parameter instead of becoming a
    query parameter of the URL, and the call may raise.  A plain query
    has none of them. *)
Definition URL_FOR_PARAMETERS : list pystr :=
  map py ["self"; "endpoint"; "_anchor"; "_method"; "_scheme"; "_external"]%string.

Definition plain_query (args : MultiDict) : Prop :=
  forall k, In k URL_FOR_PARAMETERS -> md_get args k = None.

(** The pattern [%q%] of the text query is within SQLite's limit. *)
Definition pattern_within_limit (args : MultiDict) : Prop :=
  utf8_size (criterion args "q") + 2 <= Sql.LIKE_PATTERN_LIMIT.

(** The requests whose response the model gives as the code does: the
    query is plain wherever it is handed to [url_for], and the LIKE
    pattern is within the limit wherever the table is searched. *)
Definition in_scope (r : request) : Prop :=
  match r with
  | ReqIndex POST args _ => plain_query args
  | ReqIndex _ args _ => plain_query args /\ pattern_within_limit args
  | ReqDelete _ args => plain_query args
  | ReqExport args => pattern_within_limit args
  end.

(** What every stored member satisfies: a positive id, a name and a
    membership type that are not empty and carry no surrounding
    whitespace, optional texts that are absent rather than empty, and
    both timestamps. *)
Definition well_formed_member (m : Member) : Prop :=
  1 <= id m
  /\ name m <> [] /\ strip (name m) = name m
  /\ membership_type m <> [] /\ strip (membership_type m) = membership_type m
  /\ contact m <> Some [] /\ source m <> Some [] /\ note m <> Some []
  /\ created_at m <> None /\ updated_at m <> None.

Definition well_formed (w : world) : Prop :=
  NoDup (map id (db w)) /\ Forall well_formed_member (db w).

(** The record [index] makes of a valid form: the fields as [index]
    normalises them, the next id of the table. *)
Definition new_member (utcnow : datetime) (form : MultiDict) (w : world)
    (j : date) (e : option date) : Member :=
  {| id := next_id (db w);
     name := criterion form "name";
     contact := or_None (criterion form "contact");
     membership_type := criterion form "membership_type";
     join_date := j;
     expiry_date := e;
     source := or_None (criterion form "source");
     note := or_None (criterion form "note");
     created_at := Some utcnow;
     updated_at := Some utcnow |}.

(** All seven conditions of a request. *)
Definition keeps_all (strptime : pystr -> outcome date) (today : date)
    (args : MultiDict) (m : Member) : bool :=
  keeps_text args m && keeps_class args m && keeps_state today args m
  && keeps_join_from strptime args m && keeps_join_to strptime args m
  && keeps_exp_from strptime args m && keeps_exp_to strptime args m.

(** [q] is made of [%] only. *)
Definition percent_only (q : pystr) : bool :=
  forallb (fun c => c =? Sql.PERCENT) q.

(** ** The specification's tables, for comparison with the code *)

(** The day offset of each membership class, as the specification lists
    them: Monthly (월간) 30, Quarterly (분기) 90, Yearly (연간) 365,
    GardenBoxOnly (상자텃밭만) 14; no offset for any other class. *)
Definition spec_offset (class : pystr) : option Z :=
  if PyStr.eqb class (py "월간") then Some 30
  else if PyStr.eqb class (py "분기") then Some 90
  else if PyStr.eqb class (py "연간") then Some 365
  else if PyStr.eqb class (py "상자텃밭만") then Some 14
  else None.

(** The derived expiry as the specification states it: join date plus
    offset, absent without a join date or without an offset. *)
Definition spec_expiry (join_date : option date) (class : pystr) : option date :=
  match join_date, spec_offset class with
  | Some j, Some off => Some (j + off)
  | _, _ => None
  end.






(** The keys [apply_filters] reads. *)
Definition KEYS : list string :=
  ["q"; "membership_type"; "expired"; "join_from"; "join_to";
   "exp_from"; "exp_to"]%string.



(** ** Sample data *)

Definition noon : datetime :=
  {| dt_date := 739038; dt_hour := 12; dt_minute := 0; dt_second := 0;
     dt_microsecond := 0 |}.

(** Kim, Monthly, joined 2024-01-01, expiry 2024-01-31. *)
Definition kim : Member :=
  {| id := 1; name := py "Kim"; contact := None;
     membership_type := py "월간";
     join_date := 738886; expiry_date := Some 738916;
     source := None; note := None;
     created_at := Some noon; updated_at := Some noon |}.

(** Lee, Yearly, joined 2024-01-01, no expiry, a note of two lines. *)
Definition lee : Member :=
  {| id := 2; name := py "Lee"; contact := Some (py "010-1234");
     membership_type := py "연간";
     join_date := 738886; expiry_date := None;
     source := None; note := Some [97; LF; 98];
     created_at := Some noon; updated_at := Some noon |}.

Definition empty_world : world := {| db := []; flashes := [] |}.
Definition two_members : world := {| db := [kim; lee]; flashes := [] |}.

(** Creation forms: without a name; without a name and joining on the
    last day of the calendar; complete, with an explicit expiry. *)
Definition form_without_name : MultiDict :=
  [ (py "membership_type", py "월간"); (py "join_date", py "2024-01-01") ].

Definition last_day_no_name : MultiDict :=
  [ (py "membership_type", py "월간"); (py "join_date", py "9999-12-31") ].


(** Filter requests. *)
Definition only_active : MultiDict := [ (py "expired", py "active") ].
Definition only_expired : MultiDict := [ (py "expired", py "expired") ].

(** 2024-06-01 *)
Definition june_first : date := 739038.

(** More forms and requests: Kim's form, with a blank contact; a form
    with a class outside the table; a request whose criteria are all
    blank, unknown or unparsable; crossed join bounds; a text query of
    wildcards. *)
Definition form_kim : MultiDict :=
  [ (py "name", py " Kim "); (py "contact", py "  ");
    (py "membership_type", py "월간"); (py "join_date", py "2024-01-01") ].
Definition nothing_to_filter : MultiDict :=
  [ (py "q", py "  "); (py "expired", py "Active");
    (py "join_from", py "soon") ].
Definition crossed_join : MultiDict :=
  [ (py "join_from", py "2024-02-01"); (py "join_to", py "2024-01-01") ].
Definition query_percent : MultiDict := [ (py "q", py "%%") ].

(** Kim alone, with one message waiting. *)
Definition one_notice : world := {| db := [kim]; flashes := [MSG_CREATED] |}.



(** * Properties *)

(** ** Strings and request data *)

Lemma pystr_eqb_eq (a b : pystr) : PyStr.eqb a b = true <-> a = b.
Proof.
  revert b; induction a as [|x a IH]; intros [|y b]; simpl;
    try (split; [discriminate | congruence]); try tauto.
  rewrite andb_true_iff, Z.eqb_eq, IH.
  split; [intros [-> ->]; reflexivity | intros E; inversion E; auto].
Qed.

Lemma pystr_eqb_refl (a : pystr) : PyStr.eqb a a = true.
Proof. apply pystr_eqb_eq; reflexivity. Qed.

Lemma pystr_eqb_neq (a b : pystr) : PyStr.eqb a b = false <-> a <> b.
Proof.
  rewrite <- pystr_eqb_eq. destruct (PyStr.eqb a b); split; congruence.
Qed.

Lemma md_get_remove_same (k : pystr) (d : MultiDict) :
  md_get (md_remove k d) k = None.
Proof.
  induction d as [|[k' v] d IH]; simpl; [reflexivity|].
  destruct (PyStr.eqb k' k) eqn:E; simpl; [exact IH|].
  rewrite E; exact IH.
Qed.

Lemma md_get_remove_other (k k' : pystr) (d : MultiDict) :
  PyStr.eqb k k' = false -> md_get (md_remove k d) k' = md_get d k'.
Proof.
  intros N. induction d as [|[k0 v] d IH]; simpl; [reflexivity|].
  destruct (PyStr.eqb k0 k) eqn:E; simpl.
  - apply pystr_eqb_eq in E; subst k0. rewrite N. exact IH.
  - destruct (PyStr.eqb k0 k'); [reflexivity | exact IH].
Qed.

(** ** Queries *)

Lemma holds_and_ (cs : list Sql.tri) :
  Sql.holds (Sql.and_ cs) = forallb Sql.holds cs.
Proof.
  induction cs as [|c cs IH]; simpl; [reflexivity|].
  rewrite <- IH. destruct c as [[|]|], (Sql.and_ cs) as [[|]|]; reflexivity.
Qed.

Lemma holds_or_ (cs : list Sql.tri) :
  Sql.holds (Sql.or_ cs) = existsb Sql.holds cs.
Proof.
  induction cs as [|c cs IH]; simpl; [reflexivity|].
  rewrite <- IH. destruct c as [[|]|], (Sql.or_ cs) as [[|]|]; reflexivity.
Qed.

Lemma holds_Some (b : bool) : Sql.holds (Some b) = b.
Proof. destruct b; reflexivity. Qed.

Lemma holds_eq_text (s v : pystr) :
  Sql.holds (Sql.eq_text (Some s) v) = PyStr.eqb s v.
Proof. apply holds_Some. Qed.

Lemma holds_ge (col : option date) (v : date) :
  Sql.holds (Sql.ge col v)
  = match col with Some d => v <=? d | None => false end.
Proof. destruct col as [d|]; simpl; [destruct (v <=? d)|]; reflexivity. Qed.

Lemma holds_le (col : option date) (v : date) :
  Sql.holds (Sql.le col v)
  = match col with Some d => d <=? v | None => false end.
Proof. destruct col as [d|]; simpl; [destruct (d <=? v)|]; reflexivity. Qed.

Lemma holds_active (col : option date) (v : date) :
  Sql.holds (Sql.or_ [Sql.is_null col; Sql.ge col v])
  = match col with None => true | Some d => v <=? d end.
Proof. destruct col as [d|]; simpl; [destruct (v <=? d)|]; reflexivity. Qed.

Lemma holds_expired (col : option date) (v : date) :
  Sql.holds (Sql.and_ [Sql.is_not_null col; Sql.lt col v])
  = match col with None => false | Some d => d <? v end.
Proof. destruct col as [d|]; simpl; [destruct (d <? v)|]; reflexivity. Qed.

Lemma selects_filter_ (q : Query) (c : Member -> Sql.tri) (m : Member) :
  selects (filter_ q c) m = selects q m && Sql.holds (c m).
Proof.
  unfold selects, filter_; simpl.
  rewrite map_app, !holds_and_, forallb_app; simpl.
  rewrite andb_true_r; reflexivity.
Qed.

(** *** Ordering *)

Lemma place_perm (o : ordering) (m : Member) (l : list Member) :
  Permutation (place o m l) (m :: l).
Proof.
  induction l as [|x l IH]; simpl; [apply Permutation_refl|].
  destruct (before o m x); [apply Permutation_refl|].
  eapply perm_trans; [apply perm_skip, IH | apply perm_swap].
Qed.

Lemma ordered_perm (o : option ordering) (l : list Member) :
  Permutation (ordered o l) l.
Proof.
  destruct o as [o|]; simpl; [|apply Permutation_refl].
  induction l as [|x l IH]; simpl; [constructor|].
  eapply perm_trans; [apply place_perm | apply perm_skip, IH].
Qed.

Lemma in_all (table : list Member) (q : Query) (m : Member) :
  In m (all table q) <-> In m table /\ selects q m = true.
Proof.
  unfold all. rewrite <- filter_In.
  split; apply Permutation_in;
    [apply ordered_perm | apply Permutation_sym, ordered_perm].
Qed.

Lemma before_total (o : ordering) (a b : Member) :
  before o a b = false -> before o b a = true.
Proof. destruct o; simpl; rewrite Z.leb_gt, Z.leb_le; lia. Qed.

Lemma before_trans (o : ordering) (a b c : Member) :
  before o a b = true -> before o b c = true -> before o a c = true.
Proof. destruct o; simpl; rewrite !Z.leb_le; lia. Qed.

Lemma place_sorted (o : ordering) (m : Member) (l : list Member) :
  StronglySorted (precedes o) l -> StronglySorted (precedes o) (place o m l).
Proof.
  induction 1 as [|x l S IH A]; simpl.
  - repeat constructor.
  - destruct (before o m x) eqn:E.
    + constructor; [constructor; assumption|].
      constructor; [exact E|].
      rewrite Forall_forall in *. intros y Hy.
      eapply before_trans; [exact E | apply A, Hy].
    + constructor; [exact IH|].
      rewrite Forall_forall in *. intros y Hy.
      apply (Permutation_in _ (place_perm o m l)) in Hy.
      destruct Hy as [<-|Hy]; [apply before_total, E | apply A, Hy].
Qed.

Lemma ordered_sorted (o : ordering) (l : list Member) :
  StronglySorted (precedes o) (ordered (Some o) l).
Proof.
  induction l as [|x l IH]; simpl; [constructor | apply place_sorted, IH].
Qed.

(** Selecting rows commutes with ordering them. *)
Lemma place_filter (o : ordering) (p : Member -> bool) (m : Member) (l : list Member) :
  StronglySorted (precedes o) l ->
  filter p (place o m l) = if p m then place o m (filter p l) else filter p l.
Proof.
  induction 1 as [|x l S IH A]; simpl.
  - destruct (p m); reflexivity.
  - destruct (before o m x) eqn:E; simpl.
    + destruct (p m) eqn:Pm; [|reflexivity].
      destruct (p x) eqn:Px; simpl; [rewrite E; reflexivity|].
      f_equal. destruct (filter p l) as [|y r] eqn:F; [reflexivity|].
      simpl. assert (Hy : In y (filter p l)) by (rewrite F; left; reflexivity).
      apply filter_In in Hy. destruct Hy as [Hy _].
      rewrite Forall_forall in A.
      rewrite (before_trans o m x y E (A y Hy)). reflexivity.
    + rewrite IH. destruct (p x) eqn:Px, (p m) eqn:Pm; simpl;
        rewrite ?E; reflexivity.
Qed.

Lemma ordered_filter (o : option ordering) (p : Member -> bool) (l : list Member) :
  ordered o (filter p l) = filter p (ordered o l).
Proof.
  destruct o as [o|]; simpl; [|reflexivity].
  induction l as [|x l IH]; simpl; [reflexivity|].
  rewrite place_filter by apply (ordered_sorted o l).
  destruct (p x); simpl; rewrite IH; reflexivity.
Qed.

Lemma all_refine (table : list Member) (q1 q2 : Query) (p : Member -> bool) :
  order q1 = order q2 ->
  (forall m, selects q1 m = selects q2 m && p m) ->
  all table q1 = filter p (all table q2).
Proof.
  intros EO ES. unfold all. rewrite EO, <- ordered_filter. f_equal.
  induction table as [|x t IH]; simpl; [reflexivity|].
  rewrite ES. destruct (selects q2 x); simpl; [|exact IH].
  destruct (p x); rewrite IH; reflexivity.
Qed.

(** ** The criteria of [apply_filters], one by one *)

Section Criteria.

Variable strptime : pystr -> outcome date.
Variable today : date.

Abbreviation parse_date := (parse_date strptime).
Abbreviation apply_filters := (apply_filters strptime today).
Abbreviation bound := (bound strptime).
Abbreviation keeps_state := (keeps_state today).
Abbreviation keeps_join_from := (keeps_join_from strptime).
Abbreviation keeps_join_to := (keeps_join_to strptime).
Abbreviation keeps_exp_from := (keeps_exp_from strptime).
Abbreviation keeps_exp_to := (keeps_exp_to strptime).

Lemma order_apply_filters (args : MultiDict) (q : Query) :
  order (apply_filters args q) = order q.
Proof.
  unfold apply_filters.
  repeat match goal with
  | |- context [match ?x with _ => _ end] => destruct x
  end; reflexivity.
Qed.

Lemma selects_apply_filters (args : MultiDict) (q : Query) (m : Member) :
  selects (apply_filters args q) m
  = selects q m && keeps_text args m && keeps_class args m
    && keeps_state args m && keeps_join_from args m && keeps_join_to args m
    && keeps_exp_from args m && keeps_exp_to args m.
Proof.
  unfold apply_filters, keeps_text, keeps_class, keeps_state, keeps_join_from,
    keeps_join_to, keeps_exp_from, keeps_exp_to, bound, criterion,
    text_condition.
  destruct (strip (or_empty (md_get args (py "q")))) as [|c0 q0];
  destruct (strip (or_empty (md_get args (py "membership_type")))) as [|c1 q1];
  destruct (PyStr.eqb (strip (or_empty (md_get args (py "expired")))) (py "active"));
  destruct (PyStr.eqb (strip (or_empty (md_get args (py "expired")))) (py "expired"));
  destruct (parse_date (md_get args (py "join_from")));
  destruct (parse_date (md_get args (py "join_to")));
  destruct (parse_date (md_get args (py "exp_from")));
  destruct (parse_date (md_get args (py "exp_to")));
  cbv zeta;
  rewrite ?selects_filter_, ?andb_true_r, ?holds_ge, ?holds_le,
    ?holds_active, ?holds_expired, ?holds_eq_text;
  reflexivity.
Qed.

End Criteria.

(** ** The expiry calculator *)

Lemma pystr_eqb_sym (a b : pystr) : PyStr.eqb a b = PyStr.eqb b a.
Proof.
  destruct (PyStr.eqb b a) eqn:E.
  - apply pystr_eqb_eq in E; subst; apply pystr_eqb_refl.
  - apply pystr_eqb_neq. apply pystr_eqb_neq in E. congruence.
Qed.

Lemma DAYS_MAP_get (class : pystr) :
  dict_get DAYS_MAP class = spec_offset class.
Proof.
  unfold DAYS_MAP, spec_offset, dict_get.
  rewrite !(pystr_eqb_sym class). reflexivity.
Qed.

Lemma spec_offset_positive (class : pystr) (off : Z) :
  spec_offset class = Some off -> 0 < off.
Proof.
  unfold spec_offset.
  repeat match goal with
  | |- context [if ?b then _ else _] => destruct b
  end; intros E; inversion E; lia.
Qed.

(** C1, as the code has it: for a join date J of the calendar and a class
    of the table, [auto_expiry] returns J + 30 days for Monthly (월간),
    J + 90 for Quarterly (분기), J + 365 for Yearly (연간) and J + 14 for
    GardenBoxOnly (상자텃밭만), provided the sum is not after 9999-12-31;
    for a class outside the table it returns absent, and without a join
    date it returns absent. *)
Theorem auto_expiry_spec (join_date : option date) (class : pystr) :
  (forall j off, join_date = Some j -> spec_offset class = Some off ->
     valid_date j /\ j + off <= MAXORDINAL) ->
  auto_expiry join_date class = Ok (spec_expiry join_date class).
Proof.
  intros R. unfold auto_expiry, spec_expiry. rewrite DAYS_MAP_get.
  destruct join_date as [j|]; [|reflexivity].
  destruct (spec_offset class) as [off|] eqn:E; [|reflexivity].
  destruct (R j off eq_refl eq_refl) as [[Lo _] Hi].
  pose proof (spec_offset_positive class off E) as P.
  replace (off =? 0) with false by (symmetry; apply Z.eqb_neq; lia).
  unfold add_days.
  replace (0 <? j + off) with true by (symmetry; apply Z.ltb_lt; lia).
  replace (j + off <=? MAXORDINAL) with true by (symmetry; apply Z.leb_le; lia).
  reflexivity.
Qed.

Lemma auto_expiry_spec_witness :
  (forall j off, Some 738886 = Some j -> spec_offset (py "월간") = Some off ->
     valid_date j /\ j + off <= MAXORDINAL)
  /\ auto_expiry (Some 738886) (py "월간") = Ok (Some 738916).
Proof.
  assert (R : forall j off, Some 738886 = Some j ->
                spec_offset (py "월간") = Some off ->
                valid_date j /\ j + off <= MAXORDINAL).
  { intros j off Ej Eo. inversion Ej; subst j.
    vm_compute in Eo. inversion Eo; subst off.
    unfold valid_date, MAXORDINAL. lia. }
  split; [exact R|].
  exact (auto_expiry_spec (Some 738886) (py "월간") R).
Defined.

(** C1 as stated fails on the last days of the calendar: joining on
    9999-12-31 with class Monthly, the sum leaves the range of [date] and
    [auto_expiry] raises instead of returning J + 30. *)
Lemma auto_expiry_overflow :
  valid_date 3652059
  /\ spec_offset (py "월간") = Some 30
  /\ auto_expiry (Some 3652059) (py "월간") = Raise OverflowError
  /\ auto_expiry (Some 3652059) (py "월간") <> Ok (Some (3652059 + 30)).
Proof.
  repeat split; try reflexivity; try discriminate;
    unfold MAXORDINAL; lia.
Qed.

(** ** Deletion *)

Lemma get_absent (table : list Member) (i : Z) :
  (forall m, In m table -> id m <> i) -> get table i = None.
Proof.
  intros A. unfold get.
  destruct (find (fun m => id m =? i) table) as [m|] eqn:F; [|reflexivity].
  apply find_some in F. destruct F as [Hin E].
  apply Z.eqb_eq in E. destruct (A m Hin E).
Qed.

(** C7, as the code has it: deleting an id that no member of the
    collection has is a failure reported to the caller, never a silent
    success, and leaves the collection, and the message queue, as they
    were.  The failure is not-found (HTTP 404) for every id up to
    2^63 - 1, the largest integer SQLite accepts; beyond it the bind of
    the id raises [OverflowError]. *)
Theorem delete_absent_not_found (member_id : Z) (args : MultiDict) (w : world) :
  (forall m, In m (db w) -> id m <> member_id) ->
  (exists e, delete_member member_id args w = (Raise e, w))
  /\ (member_id <= SQLITE_MAX_INTEGER ->
      delete_member member_id args w = (Raise NotFound, w))
  /\ (SQLITE_MAX_INTEGER < member_id ->
      delete_member member_id args w = (Raise OverflowError, w)).
Proof.
  intros A. unfold delete_member. rewrite (get_absent _ _ A).
  destruct (SQLITE_MAX_INTEGER <? member_id) eqn:B.
  - apply Z.ltb_lt in B. split; [eexists; reflexivity|].
    split; [intros L; lia | reflexivity].
  - apply Z.ltb_ge in B. split; [eexists; reflexivity|].
    split; [reflexivity | intros L; lia].
Qed.

Lemma delete_absent_not_found_witness :
  (forall m, In m (db two_members) -> id m <> 7)
  /\ 7 <= SQLITE_MAX_INTEGER
  /\ delete_member 7 [] two_members = (Raise NotFound, two_members).
Proof.
  assert (A : forall m, In m (db two_members) -> id m <> 7).
  { intros m [<-|[<-|[]]]; discriminate. }
  assert (L : 7 <= SQLITE_MAX_INTEGER) by (unfold SQLITE_MAX_INTEGER; lia).
  split; [exact A|]. split; [exact L|].
  exact (proj1 (proj2 (delete_absent_not_found 7 [] two_members A)) L).
Defined.

(** C7 as stated fails for an id beyond what SQLite accepts: the route
    takes any run of digits, and for 2^63, which no member has, the
    request ends in [OverflowError], not in the not-found failure. *)
Lemma delete_absent_beyond_range :
  (forall m, In m (db two_members) -> id m <> 9223372036854775808)
  /\ delete_member 9223372036854775808 [] two_members
     = (Raise OverflowError, two_members)
  /\ delete_member 9223372036854775808 [] two_members
     <> (Raise NotFound, two_members).
Proof.
  split; [intros m [<-|[<-|[]]]; discriminate|].
  split; [reflexivity | discriminate].
Qed.

(** ** Creation *)

Section Creation.

Variable strptime : pystr -> outcome date.
Variable today : date.
Variable utcnow : datetime.

Abbreviation bound := (bound strptime).
Abbreviation index := (index strptime today utcnow).


Lemma compute_expiry_no_class (j x : option date) :
  exists e, compute_expiry j [] x = Ok e.
Proof.
  destruct x as [e|]; [exists (Some e); reflexivity|].
  exists None. destruct j; reflexivity.
Qed.

Lemma compute_expiry_no_join (class : pystr) (x : option date) :
  exists e, compute_expiry None class x = Ok e.
Proof.
  destruct x as [e|]; [exists (Some e) | exists None]; reflexivity.
Qed.

(** C6, as the code has it: a creation request in which name,
    membershipClass or joinDate is missing adds no record; and whenever
    the expiry derivation returns (always when the class or the join date
    is the missing field, or an explicit expiry is given), the notice is
    flashed and the caller is redirected to the listing, without query
    parameters. *)
Theorem create_missing_field (args form : MultiDict) (w : world) :
  criterion form "name" = [] \/ criterion form "membership_type" = []
    \/ bound form "join_date" = None ->
  db (snd (index POST args form w)) = db w
  /\ ((criterion form "membership_type" = []
       \/ bound form "join_date" = None
       \/ (exists e, bound form "expiry_date" = Some e)
       \/ (exists e, compute_expiry (bound form "join_date")
                       (criterion form "membership_type")
                       (bound form "expiry_date") = Ok e)) ->
      index POST args form w
      = (Ok (Redirect (py "index") []), flash MSG_REQUIRED w)).
Proof.
  unfold index, criterion, bound.
  generalize (strip (or_empty (md_get form (py "name")))) as nm.
  generalize (strip (or_empty (md_get form (py "membership_type")))) as mt.
  generalize (parse_date strptime (md_get form (py "join_date"))) as jd.
  generalize (parse_date strptime (md_get form (py "expiry_date"))) as ex.
  intros ex jd mt nm Missing.
  destruct (compute_expiry jd mt ex) as [e|x] eqn:CE.
  - assert (R : match nm, mt, jd with
                | _ :: _, _ :: _, Some _ => False
                | _, _, _ => True
                end).
    { destruct nm, mt, jd; try exact I.
      destruct Missing as [E | [E | E]]; discriminate E. }
    destruct nm, mt, jd; try destruct R; split; reflexivity.
  - split; [reflexivity|]. intros OK. exfalso.
    destruct OK as [E | [E | [[e E] | [e E]]]].
    + rewrite E in CE. destruct (compute_expiry_no_class jd ex) as [e E'].
      congruence.
    + rewrite E in CE. destruct (compute_expiry_no_join mt ex) as [e E'].
      congruence.
    + rewrite E in CE. discriminate.
    + congruence.
Qed.


End Creation.

Lemma create_missing_field_witness :
  (criterion form_without_name "name" = []
   \/ criterion form_without_name "membership_type" = []
   \/ bound Strptime.strptime_ascii form_without_name "join_date" = None)
  /\ index Strptime.strptime_ascii june_first noon POST [] form_without_name
       two_members
     = (Ok (Redirect (py "index") []), flash MSG_REQUIRED two_members).
Proof.
  assert (M : criterion form_without_name "name" = []
              \/ criterion form_without_name "membership_type" = []
              \/ bound Strptime.strptime_ascii form_without_name
                   "join_date" = None)
    by (left; reflexivity).
  split; [exact M|].
  apply (create_missing_field Strptime.strptime_ascii june_first noon []
           form_without_name two_members M).
  right; right; right. eexists. vm_compute. reflexivity.
Defined.

(** C6 as stated fails when the name is missing while the class is in
    the table and the join date is one of the last days of the calendar:
    the expiry is derived before the fields are checked, the derivation
    raises, and the request ends in that exception, with no notice and no
    redirect (the collection is unchanged). *)
Lemma create_missing_name_overflow :
  criterion last_day_no_name "name" = []
  /\ index Strptime.strptime_ascii june_first noon POST [] last_day_no_name
       empty_world
     = (Raise OverflowError, empty_world)
  /\ index Strptime.strptime_ascii june_first noon POST [] last_day_no_name
       empty_world
     <> (Ok (Redirect (py "index") []), flash MSG_REQUIRED empty_world).
Proof.
  split; [reflexivity|]. split; [vm_compute; reflexivity|].
  vm_compute. discriminate.
Qed.


(** *** Tables with a primary key *)


Lemma distinct_ids_filter (p : Member -> bool) (l : list Member) :
  NoDup (map id l) -> NoDup (map id (filter p l)).
Proof.
  induction l as [|x l IH]; simpl; intros D; [constructor|].
  inversion D as [|? ? Nx D']; subst.
  destruct (p x); simpl; [|apply IH, D'].
  constructor; [|apply IH, D'].
  intros H. apply Nx. apply in_map_iff in H. destruct H as (y & E & Hy).
  apply filter_In in Hy. rewrite <- E. apply in_map, Hy.
Qed.




Lemma next_id_above (table : list Member) (m : Member) :
  In m table -> id m < next_id table.
Proof.
  unfold next_id. induction table as [|x t IH]; simpl; [tauto|].
  intros [<-|H]; [lia|]. specialize (IH H). lia.
Qed.

(** The routes keep the ids of the table distinct. *)
Lemma index_keeps_ids_distinct (strptime : pystr -> outcome date)
    (today : date) (utcnow : datetime) (meth : method)
    (args form : MultiDict) (w : world) :
  NoDup (map id (db w)) ->
  NoDup (map id (db (snd (index strptime today utcnow meth args form w)))).
Proof.
  intros D. destruct meth; try exact D. unfold index.
  destruct (compute_expiry _ _ _) as [e|x]; [|exact D].
  destruct (strip (or_empty (md_get form (py "name")))); [exact D|].
  destruct (strip (or_empty (md_get form (py "membership_type")))); [exact D|].
  destruct (parse_date strptime (md_get form (py "join_date"))); [|exact D].
  cbn [snd flash add_member db]. rewrite map_app. cbn [map id].
  apply (Permutation_NoDup (Permutation_cons_append _ _)).
  constructor; [|exact D].
  intros H. apply in_map_iff in H. destruct H as (m & E & Hm).
  pose proof (next_id_above _ _ Hm). lia.
Qed.

Lemma delete_keeps_ids_distinct (member_id : Z) (args : MultiDict) (w : world) :
  NoDup (map id (db w)) ->
  NoDup (map id (db (snd (delete_member member_id args w)))).
Proof.
  intros D. unfold delete_member.
  destruct (get (db w) member_id);
    [|destruct (SQLITE_MAX_INTEGER <? member_id); exact D].
  cbn [snd flash db]. apply distinct_ids_filter, D.
Qed.

(** ** Criteria that are absent from the request *)

Lemma criterion_remove_same (k : string) (args : MultiDict) :
  criterion (md_remove (py k) args) k = [].
Proof. unfold criterion. rewrite md_get_remove_same. reflexivity. Qed.

Lemma criterion_remove_other (k k' : string) (args : MultiDict) :
  PyStr.eqb (py k) (py k') = false ->
  criterion (md_remove (py k) args) k' = criterion args k'.
Proof. intros N. unfold criterion. rewrite md_get_remove_other by exact N. reflexivity. Qed.

Section Filters.

Variable strptime : pystr -> outcome date.
Variable today : date.
Variable utcnow : datetime.

Abbreviation parse_date := (parse_date strptime).
Abbreviation apply_filters := (apply_filters strptime today).
Abbreviation bound := (bound strptime).
Abbreviation keeps_state := (keeps_state today).
Abbreviation keeps_join_from := (keeps_join_from strptime).
Abbreviation keeps_join_to := (keeps_join_to strptime).
Abbreviation keeps_exp_from := (keeps_exp_from strptime).
Abbreviation keeps_exp_to := (keeps_exp_to strptime).
Abbreviation keeps := (keeps strptime today).
Abbreviation index := (index strptime today utcnow).
Abbreviation export_rows := (export_rows strptime today).
Abbreviation export_csv := (export_csv strptime today).

Lemma bound_remove_same (k : string) (args : MultiDict) :
  bound (md_remove (py k) args) k = None.
Proof. unfold bound. rewrite md_get_remove_same. reflexivity. Qed.

Lemma bound_remove_other (k k' : string) (args : MultiDict) :
  PyStr.eqb (py k) (py k') = false ->
  bound (md_remove (py k) args) k' = bound args k'.
Proof. intros N. unfold bound. rewrite md_get_remove_other by exact N. reflexivity. Qed.

(** Removing the key of one criterion leaves the other six untouched. *)
Lemma keeps_remove (k : string) (args : MultiDict) (m : Member) :
  let rest := md_remove (py k) args in
  (PyStr.eqb (py k) (py "q") = false -> keeps_text rest m = keeps_text args m)
  /\ (PyStr.eqb (py k) (py "membership_type") = false ->
      keeps_class rest m = keeps_class args m)
  /\ (PyStr.eqb (py k) (py "expired") = false ->
      keeps_state rest m = keeps_state args m)
  /\ (PyStr.eqb (py k) (py "join_from") = false ->
      keeps_join_from rest m = keeps_join_from args m)
  /\ (PyStr.eqb (py k) (py "join_to") = false ->
      keeps_join_to rest m = keeps_join_to args m)
  /\ (PyStr.eqb (py k) (py "exp_from") = false ->
      keeps_exp_from rest m = keeps_exp_from args m)
  /\ (PyStr.eqb (py k) (py "exp_to") = false ->
      keeps_exp_to rest m = keeps_exp_to args m).
Proof.
  unfold keeps_text, keeps_class, keeps_state, keeps_join_from, keeps_join_to,
    keeps_exp_from, keeps_exp_to.
  repeat split; intros N;
    rewrite ?(criterion_remove_other _ _ _ N), ?(bound_remove_other _ _ _ N);
    reflexivity.
Qed.

Lemma keeps_removed (args : MultiDict) (m : Member) :
  keeps_text (md_remove (py "q") args) m = true
  /\ keeps_class (md_remove (py "membership_type") args) m = true
  /\ keeps_state (md_remove (py "expired") args) m = true
  /\ keeps_join_from (md_remove (py "join_from") args) m = true
  /\ keeps_join_to (md_remove (py "join_to") args) m = true
  /\ keeps_exp_from (md_remove (py "exp_from") args) m = true
  /\ keeps_exp_to (md_remove (py "exp_to") args) m = true.
Proof.
  unfold keeps_text, keeps_class, keeps_state, keeps_join_from, keeps_join_to,
    keeps_exp_from, keeps_exp_to.
  rewrite !criterion_remove_same, !bound_remove_same.
  repeat split.
Qed.

(** Every criterion is a conjunct of its own: the request selects what
    the request without key [k] selects and the condition of [k] keeps. *)
Lemma selects_split (k : string) (args : MultiDict) (q0 : Query) (m : Member) :
  In k ["q"; "membership_type"; "expired"; "join_from"; "join_to";
        "exp_from"; "exp_to"]%string ->
  selects (apply_filters args q0) m
  = selects (apply_filters (md_remove (py k) args) q0) m && keeps k args m.
Proof.
  intros K. rewrite !selects_apply_filters.
  destruct (keeps_remove k args m) as (T & C & S & JF & JT & EF & ET).
  destruct (keeps_removed args m) as (T' & C' & S' & JF' & JT' & EF' & ET').
  cbv zeta in *.
  simpl in K.
  repeat (destruct K as [<- | K];
    [ try rewrite (T eq_refl); try rewrite (C eq_refl);
      try rewrite (S eq_refl); try rewrite (JF eq_refl);
      try rewrite (JT eq_refl); try rewrite (EF eq_refl);
      try rewrite (ET eq_refl);
      rewrite ?T', ?C', ?S', ?JF', ?JT', ?EF', ?ET';
      unfold keeps; cbn [String.eqb Ascii.eqb Bool.eqb andb]; btauto | ]).
  destruct K.
Qed.

(** The rows a request selects are those the request without key [k]
    selects, filtered by the condition of [k], in the same order. *)
Lemma all_split (k : string) (args : MultiDict) (q0 : Query) (table : list Member) :
  In k ["q"; "membership_type"; "expired"; "join_from"; "join_to";
        "exp_from"; "exp_to"]%string ->
  all table (apply_filters args q0)
  = filter (keeps k args) (all table (apply_filters (md_remove (py k) args) q0)).
Proof.
  intros K. apply all_refine.
  - rewrite !order_apply_filters. reflexivity.
  - intros m. apply selects_split, K.
Qed.

Lemma in_all_split (k : string) (args : MultiDict) (q0 : Query)
    (table : list Member) (m : Member) :
  In k KEYS ->
  In m (all table (apply_filters args q0))
  <-> In m (all table (apply_filters (md_remove (py k) args) q0))
      /\ keeps k args m = true.
Proof.
  intros K. rewrite (all_split k args q0 table K). apply filter_In.
Qed.

(** A request without criteria selects the whole table. *)
Lemma in_all_no_criteria (o : ordering) (table : list Member) (m : Member) :
  In m (all table (apply_filters [] (order_by Member_query o))) <-> In m table.
Proof.
  rewrite in_all, selects_apply_filters.
  change (selects (order_by Member_query o) m) with true.
  cbn [andb]. unfold keeps_text, keeps_class, keeps_state, keeps_join_from,
    keeps_join_to, keeps_exp_from, keeps_exp_to, bound.
  change (criterion [] "q") with (@nil Z).
  change (criterion [] "membership_type") with (@nil Z).
  change (criterion [] "expired") with (@nil Z).
  cbn. tauto.
Qed.

(** ** Expiry state *)

Lemma keeps_active (args : MultiDict) (m : Member) :
  criterion args "expired" = py "active" ->
  keeps "expired" args m = true
  <-> expiry_date m = None \/ exists d, expiry_date m = Some d /\ today <= d.
Proof.
  intros A. change (keeps "expired" args m) with (keeps_state args m).
  unfold keeps_state. rewrite A, pystr_eqb_refl.
  destruct (expiry_date m) as [d|].
  - rewrite Z.leb_le. split.
    + intros H; right; exists d; auto.
    + intros [H|[d' [H L]]]; [discriminate | congruence].
  - split; auto.
Qed.

Lemma keeps_expired (args : MultiDict) (m : Member) :
  criterion args "expired" = py "expired" ->
  keeps "expired" args m = true
  <-> exists d, expiry_date m = Some d /\ d < today.
Proof.
  intros A. change (keeps "expired" args m) with (keeps_state args m).
  unfold keeps_state. rewrite A, pystr_eqb_refl.
  change (PyStr.eqb (py "expired") (py "active")) with false. cbv iota.
  destruct (expiry_date m) as [d|].
  - rewrite Z.ltb_lt. split.
    + intros H; exists d; auto.
    + intros [d' [H L]]; congruence.
  - split; [discriminate | intros [d [H _]]; discriminate].
Qed.

(** C2: with expiryState "active" a member is kept iff the rest of the
    request keeps it and its expiry date is absent or not before today;
    with "expired", iff the rest of the request keeps it and its expiry
    date is present and before today.  So a member without expiry date
    passes "active", is dropped by "expired", and is dropped by every
    expFrom or expTo bound.  When the expiry state is the only criterion
    of the request, "the rest of the request keeps it" means that it is
    in the collection. *)
Theorem expiry_state_filter (args : MultiDict) (q0 : Query)
    (table : list Member) (m : Member) :
  let kept a := In m (all table (apply_filters a q0)) in
  let rest := md_remove (py "expired") args in
  (criterion args "expired" = py "active" ->
     (kept args <->
      kept rest /\ (expiry_date m = None
                    \/ exists d, expiry_date m = Some d /\ today <= d)))
  /\ (criterion args "expired" = py "expired" ->
     (kept args <->
      kept rest /\ exists d, expiry_date m = Some d /\ d < today))
  /\ (expiry_date m = None ->
      (criterion args "expired" = py "active" -> (kept args <-> kept rest))
      /\ (criterion args "expired" = py "expired" -> ~ kept args)
      /\ ((exists b, bound args "exp_from" = Some b)
          \/ (exists b, bound args "exp_to" = Some b) -> ~ kept args))
  /\ (forall o v, strip v = py "active" ->
       (In m (all table (apply_filters [(py "expired", v)]
                           (order_by Member_query o)))
        <-> In m table /\ (expiry_date m = None
                           \/ exists d, expiry_date m = Some d /\ today <= d)))
  /\ (forall o v, strip v = py "expired" ->
       (In m (all table (apply_filters [(py "expired", v)]
                           (order_by Member_query o)))
        <-> In m table /\ exists d, expiry_date m = Some d /\ d < today)).
Proof.
  cbv zeta.
  assert (K : In "expired"%string KEYS) by (simpl; tauto).
  split; [|split; [|split; [|split]]]; cycle 3.
  - intros o v A.
    rewrite (in_all_split "expired" _ _ table m K),
      (keeps_active [(py "expired", v)] m A).
    change (md_remove (py "expired") [(py "expired", v)])
      with (@nil (pystr * pystr)).
    rewrite in_all_no_criteria. reflexivity.
  - intros o v A.
    rewrite (in_all_split "expired" _ _ table m K),
      (keeps_expired [(py "expired", v)] m A).
    change (md_remove (py "expired") [(py "expired", v)])
      with (@nil (pystr * pystr)).
    rewrite in_all_no_criteria. reflexivity.
  - intros A. rewrite (in_all_split _ args q0 table m K), (keeps_active _ _ A).
    reflexivity.
  - intros A. rewrite (in_all_split _ args q0 table m K), (keeps_expired _ _ A).
    reflexivity.
  - intros N. split; [|split].
    + intros A.
      rewrite (in_all_split _ args q0 table m K), (keeps_active _ _ A). tauto.
    + intros A.
      rewrite (in_all_split _ args q0 table m K), (keeps_expired _ _ A).
      intros [_ [d [E _]]]. congruence.
    + intros [[b B]|[b B]] H.
      * apply (in_all_split "exp_from") in H; [|simpl; tauto].
        destruct H as [_ H].
        change (keeps "exp_from" args m) with (keeps_exp_from args m) in H.
        unfold keeps_exp_from in H. rewrite B, N in H. discriminate.
      * apply (in_all_split "exp_to") in H; [|simpl; tauto].
        destruct H as [_ H].
        change (keeps "exp_to" args m) with (keeps_exp_to args m) in H.
        unfold keeps_exp_to in H. rewrite B, N in H. discriminate.
Qed.

(** ** Membership class *)


(** ** Date bounds *)




(** ** Listing and export *)





End Filters.

(** ** Text query *)











Lemma cstr_without_nul (s : pystr) : mem NUL s = false -> Sql.cstr s = s.
Proof.
  induction s as [|c s IH]; [reflexivity|].
  unfold mem. cbn [existsb Sql.cstr]. intros M.
  apply orb_false_iff in M. destruct M as [C M].
  rewrite Z.eqb_sym in C. rewrite C. f_equal. apply IH, M.
Qed.







Section TextQuery.

Variable strptime : pystr -> outcome date.
Variable today : date.

Abbreviation apply_filters := (apply_filters strptime today).
Abbreviation keeps := (keeps strptime today).


End TextQuery.



(** ** CSV export *)

Lemma replace_without_backslash (s : pystr) :
  mem BACKSLASH s = false ->
  replace [BACKSLASH; 110] [SPACE] s = s.
Proof.
  unfold replace. induction s as [|c s IH]; intros M; [reflexivity|].
  unfold mem in M. cbn [existsb] in M.
  apply orb_false_iff in M. destruct M as [C M].
  cbn [replace_from startswith]. rewrite C. cbn [andb].
  rewrite (IH M). reflexivity.
Qed.

(** The note cell of a member whose note holds no backslash is the note
    itself, line feeds included. *)
Lemma export_row_note (m : Member) (s : pystr) :
  note m = Some s ->
  mem BACKSLASH s = false ->
  nth 7 (export_row m) (Csv.CStr []) = Csv.CStr s.
Proof.
  intros N M. unfold export_row. cbn [nth]. rewrite N. cbn [or_empty].
  rewrite (replace_without_backslash s M). reflexivity.
Qed.

(** C4 evaluated on the code: Lee's note is [a], a line feed, [b].  The
    row written for Lee keeps the line feed, inside a quoted field; what
    [export_row] replaces by a space is a backslash followed by the
    letter n. *)
Theorem export_row_keeps_line_feed :
  note lee = Some [97; LF; 98]
  /\ nth 7 (export_row lee) (Csv.CStr []) = Csv.CStr [97; LF; 98]
  /\ nth 7 (export_row lee) (Csv.CStr []) <> Csv.CStr [97; SPACE; 98]
  /\ Csv.writerow (export_row lee)
     = py "2,Lee,010-1234,연간,2024-01-01,,,"
       ++ [Csv.DQUOTE; 97; LF; 98; Csv.DQUOTE]
       ++ py ",2024-06-01T12:00:00,2024-06-01T12:00:00" ++ [CR; LF]
  /\ replace [BACKSLASH; 110] [SPACE] [97; BACKSLASH; 110; 98]
     = [97; SPACE; 98].
Proof.
  split; [reflexivity|].
  split; [apply export_row_note; reflexivity|].
  split; [rewrite (export_row_note lee [97; LF; 98]) by reflexivity;
          discriminate|].
  split; vm_compute; reflexivity.
Qed.

(** ** The theorems on concrete requests *)

Abbreviation filters_on_sample args :=
  (apply_filters Strptime.strptime_ascii june_first args
     (order_by Member_query IdDesc)).

(** Two members, one expired on 2024-01-31 and one without expiry date,
    seen on 2024-06-01: "expired" selects the first, "active" the
    second. *)
Example expired_selects_kim :
  all (db two_members) (filters_on_sample only_expired) = [kim].
Proof. reflexivity. Qed.

Example active_selects_lee :
  all (db two_members) (filters_on_sample only_active) = [lee].
Proof. reflexivity. Qed.

(** Kim, Monthly, joining on 2024-01-01 without explicit expiry, is
    stored with expiry date 2024-01-31. *)
Example kim_is_stored_with_derived_expiry :
  db (snd (index Strptime.strptime_ascii june_first noon POST []
             [ (py "name", py "Kim"); (py "membership_type", py "월간");
               (py "join_date", py "2024-01-01") ] empty_world))
  = [kim].
Proof. reflexivity. Qed.

Lemma expiry_state_filter_witness :
  criterion only_active "expired" = py "active"
  /\ expiry_date lee = None
  /\ (In lee (all (db two_members) (filters_on_sample only_active))
      <-> In lee (all (db two_members)
                    (filters_on_sample (md_remove (py "expired") only_active))))
  /\ In lee (all (db two_members) (filters_on_sample only_active)).
Proof.
  assert (A : criterion only_active "expired" = py "active") by reflexivity.
  assert (N : expiry_date lee = None) by reflexivity.
  destruct (expiry_state_filter Strptime.strptime_ascii june_first only_active
              (order_by Member_query IdDesc) (db two_members) lee)
    as (_ & _ & W & _).
  destruct (W N) as (P & _ & _).
  repeat (split; [assumption|]).
  split; [exact (P A)|].
  apply (P A). left. reflexivity.
Defined.





(** * Further properties of the code *)

(** ** The expiry calculator outside its table and its range *)

(** X1: [auto_expiry] raises in one situation only, with one exception
    only: a join date and a class of [DAYS_MAP] whose sum is not a date,
    and then it raises [OverflowError]. *)
Theorem auto_expiry_raises_iff (join_date : option date) (class : pystr) (e : exn) :
  auto_expiry join_date class = Raise e
  <-> e = OverflowError
      /\ exists j days,
           join_date = Some j /\ dict_get DAYS_MAP class = Some days
           /\ ~ (0 < j + days <= MAXORDINAL).
Proof.
  unfold auto_expiry. destruct join_date as [j|].
  - destruct (dict_get DAYS_MAP class) as [days|] eqn:G.
    + assert (P : 0 < days)
        by (rewrite DAYS_MAP_get in G; exact (spec_offset_positive _ _ G)).
      replace (days =? 0) with false by (symmetry; apply Z.eqb_neq; lia).
      unfold add_days.
      destruct (0 <? j + days) eqn:L; destruct (j + days <=? MAXORDINAL) eqn:H;
        simpl; (split; [intros E | intros (-> & j' & d' & Ej & Ed & N)]);
        try discriminate E; try (inversion E; subst e);
        try (inversion Ej; inversion Ed; subst j' d');
        try rewrite Z.ltb_lt in L; try rewrite Z.ltb_ge in L;
        try rewrite Z.leb_le in H; try rewrite Z.leb_gt in H;
        try reflexivity; try (exfalso; lia);
        (split; [reflexivity | exists j, days; repeat split; lia]).
    + split; [discriminate | intros (_ & j' & d' & _ & Ed & _); discriminate].
  - split; [discriminate | intros (_ & j' & d' & Ej & _); discriminate].
Qed.

(** X2: a derived expiry date is later than the join date, by 14, 30, 90
    or 365 days. *)
Theorem auto_expiry_after_join (j d : date) (class : pystr) :
  auto_expiry (Some j) class = Ok (Some d) ->
  j < d /\ (d - j = 14 \/ d - j = 30 \/ d - j = 90 \/ d - j = 365).
Proof.
  unfold auto_expiry. rewrite DAYS_MAP_get. unfold spec_offset.
  repeat match goal with
  | |- context [if PyStr.eqb ?a ?b then _ else _] => destruct (PyStr.eqb a b)
  end; cbn [Z.eqb]; unfold add_days;
  try match goal with
  | |- context [if ?c then Ok _ else Raise _] => destruct c
  end; cbn [bind]; intros E; inversion E; lia.
Qed.

Lemma auto_expiry_after_join_witness :
  auto_expiry (Some 738886) (py "연간") = Ok (Some 739251)
  /\ 738886 < 739251.
Proof.
  assert (E : auto_expiry (Some 738886) (py "연간") = Ok (Some 739251))
    by reflexivity.
  split; [exact E|]. exact (proj1 (auto_expiry_after_join _ _ _ E)).
Defined.

(** ** Stripped text *)

Lemma lstrip_idem (s : pystr) : lstrip (lstrip s) = lstrip s.
Proof.
  induction s as [|c s IH]; simpl; [reflexivity|].
  destruct (isspace c) eqn:E; [exact IH|]. simpl. rewrite E. reflexivity.
Qed.

Lemma lstrip_snoc (l : pystr) (c : Z) :
  isspace c = false -> lstrip (l ++ [c]) = lstrip l ++ [c].
Proof.
  intros N. induction l as [|x l IH]; simpl; [rewrite N; reflexivity|].
  destruct (isspace x); [exact IH | reflexivity].
Qed.

Lemma lstrip_rstrip_lstrip (s : pystr) :
  lstrip (rstrip (lstrip s)) = rstrip (lstrip s).
Proof.
  destruct (lstrip s) as [|c t] eqn:E; [reflexivity|].
  assert (N : isspace c = false).
  { clear -E. induction s as [|x s IH]; simpl in E; [discriminate|].
    destruct (isspace x) eqn:X; [exact (IH E)|]. inversion E; subst. exact X. }
  unfold rstrip. simpl rev. rewrite (lstrip_snoc _ _ N), rev_app_distr.
  simpl. rewrite N. reflexivity.
Qed.

Lemma rstrip_idem (s : pystr) : rstrip (rstrip s) = rstrip s.
Proof. unfold rstrip. rewrite rev_involutive, lstrip_idem. reflexivity. Qed.

Lemma strip_idem (s : pystr) : strip (strip s) = strip s.
Proof.
  unfold strip. rewrite lstrip_rstrip_lstrip. apply rstrip_idem.
Qed.

Lemma or_None_not_empty (s : pystr) : or_None s <> Some [].
Proof. destruct s; discriminate. Qed.

Lemma next_id_positive (table : list Member) : 1 <= next_id table.
Proof.
  unfold next_id.
  assert (0 <= fold_right (fun m acc => Z.max (id m) acc) 0 table);
    [|lia].
  induction table as [|x t IH]; simpl; lia.
Qed.

Lemma plain_query_nil : plain_query [].
Proof. intros k _. reflexivity. Qed.

(** ** Creation, step by step *)

Lemma get_last_added (table : list Member) (m : Member) :
  (forall x, In x table -> id x <> id m) ->
  get (table ++ [m]) (id m) = Some m.
Proof.
  unfold get. induction table as [|x t IH]; intros A; simpl.
  - rewrite Z.eqb_refl. reflexivity.
  - destruct (id x =? id m) eqn:E.
    + apply Z.eqb_eq in E. destruct (A x (or_introl eq_refl) E).
    + apply IH. intros y Hy. apply A. right. exact Hy.
Qed.

Section MoreCreation.

Variable strptime : pystr -> outcome date.
Variable today : date.
Variable utcnow : datetime.

Abbreviation bound := (bound strptime).
Abbreviation index := (index strptime today utcnow).
Abbreviation new_member := (new_member utcnow).

Lemma index_post_created (args form : MultiDict) (w : world) (j : date)
    (e : option date) :
  criterion form "name" <> [] ->
  criterion form "membership_type" <> [] ->
  bound form "join_date" = Some j ->
  compute_expiry (Some j) (criterion form "membership_type")
    (bound form "expiry_date") = Ok e ->
  index POST args form w
  = (Ok (Redirect (py "index") args),
     {| db := db w ++ [new_member form w j e];
        flashes := flashes w ++ [MSG_CREATED] |}).
Proof.
  unfold index, new_member, criterion, bound.
  generalize (strip (or_empty (md_get form (py "name")))) as nm.
  generalize (strip (or_empty (md_get form (py "membership_type")))) as mt.
  intros mt nm Hn Hm -> ->.
  destruct nm; [congruence|]. destruct mt; [congruence|]. reflexivity.
Qed.

(** X3: a form with name, membership type and parsable join date, whose
    expiry is given or derivable, appends one member at the end of the
    table and queues one message, as long as the next id is one SQLite
    holds.  The id is new and above every id in use; name and membership
    type are the stripped inputs; contact, source and note are the
    stripped inputs, or absent when those are empty.  The answer is a
    redirect to the listing with the query parameters of the request,
    when the query is plain and gives each key once. *)
Theorem create_appends_member (args form : MultiDict) (w : world) (j : date)
    (e : option date) :
  criterion form "name" <> [] ->
  criterion form "membership_type" <> [] ->
  bound form "join_date" = Some j ->
  compute_expiry (Some j) (criterion form "membership_type")
    (bound form "expiry_date") = Ok e ->
  next_id (db w) <= SQLITE_MAX_INTEGER ->
  snd (index POST args form w)
  = {| db := db w ++ [new_member form w j e];
       flashes := flashes w ++ [MSG_CREATED] |}
  /\ (plain_query args -> NoDup (map fst args) ->
      fst (index POST args form w) = Ok (Redirect (py "index") args))
  /\ (forall x, In x (db w) -> id x < id (new_member form w j e))
  /\ well_formed_member (new_member form w j e)
  /\ get (db w ++ [new_member form w j e]) (next_id (db w))
     = Some (new_member form w j e).
Proof.
  intros Hn Hm Hj He _.
  rewrite (index_post_created args form w j e Hn Hm Hj He).
  split; [reflexivity|]. split; [intros _ _; reflexivity|].
  split; [intros x Hx; apply next_id_above, Hx|]. split.
  - unfold well_formed_member, new_member; cbn [id name membership_type contact
      source note created_at updated_at].
    unfold criterion in *. rewrite !strip_idem.
    repeat split; try assumption; try apply or_None_not_empty;
      try discriminate. apply next_id_positive.
  - apply (get_last_added (db w) (new_member form w j e)). intros x Hx.
    pose proof (next_id_above _ _ Hx).
    change (id (new_member form w j e)) with (next_id (db w)). lia.
Qed.

(** What a POST on [/] can do: end in the exception of the expiry
    derivation, refuse the form, or store the member. *)
Lemma index_post_cases (args form : MultiDict) (w : world) :
  (exists x, compute_expiry (bound form "join_date")
               (criterion form "membership_type") (bound form "expiry_date")
             = Raise x
             /\ index POST args form w = (Raise x, w))
  \/ ((criterion form "name" = [] \/ criterion form "membership_type" = []
       \/ bound form "join_date" = None)
      /\ index POST args form w
         = (Ok (Redirect (py "index") []), flash MSG_REQUIRED w))
  \/ (exists j e,
        criterion form "name" <> []
        /\ criterion form "membership_type" <> []
        /\ bound form "join_date" = Some j
        /\ compute_expiry (Some j) (criterion form "membership_type")
             (bound form "expiry_date") = Ok e
        /\ index POST args form w
           = (Ok (Redirect (py "index") args),
              {| db := db w ++ [new_member form w j e];
                 flashes := flashes w ++ [MSG_CREATED] |})).
Proof.
  destruct (compute_expiry (bound form "join_date")
              (criterion form "membership_type") (bound form "expiry_date"))
    as [e|x] eqn:CE.
  - destruct (criterion form "name") as [|c0 n0] eqn:Hn;
      [right; left|]; cycle 1.
    destruct (criterion form "membership_type") as [|c1 m1] eqn:Hm;
      [right; left|]; cycle 1.
    destruct (bound form "join_date") as [j|] eqn:Hj; [right; right|right; left].
    + exists j, e. rewrite <- Hn, <- Hm.
      assert (N1 : criterion form "name" <> []) by (rewrite Hn; discriminate).
      assert (N2 : criterion form "membership_type" <> [])
        by (rewrite Hm; discriminate).
      rewrite <- Hm in CE.
      repeat (split; [first [assumption | reflexivity]|]).
      apply index_post_created; assumption.
    + split; [tauto|]. unfold index. unfold criterion, bound in *.
      rewrite Hn, Hm, Hj, CE. reflexivity.
    + split; [tauto|]. unfold index. unfold criterion, bound in *.
      rewrite Hn, Hm, CE. reflexivity.
    + split; [tauto|]. unfold index. unfold criterion, bound in *.
      rewrite Hn, CE. reflexivity.
  - left. exists x. split; [reflexivity|].
    unfold index. unfold criterion, bound in *. rewrite CE. reflexivity.
Qed.

Lemma snoc_not_self {A : Type} (l : list A) (x : A) : l ++ [x] <> l.
Proof.
  intros E. apply (f_equal (@List.length A)) in E.
  rewrite length_app in E. simpl in E. lia.
Qed.

(** X4: the table after a request on [/] differs from the table before
    it exactly when the request is a POST with a name, a membership type
    and a parsable join date whose expiry derivation returns.  This is
    about the table alone, whatever the answer of the request. *)
Theorem create_iff_valid (meth : method) (args form : MultiDict) (w : world) :
  db (snd (index meth args form w)) <> db w
  <-> meth = POST
      /\ criterion form "name" <> []
      /\ criterion form "membership_type" <> []
      /\ (exists j, bound form "join_date" = Some j)
      /\ (exists e, compute_expiry (bound form "join_date")
                      (criterion form "membership_type")
                      (bound form "expiry_date") = Ok e).
Proof.
  destruct meth;
    try (split; [intros N; destruct N; reflexivity
                | intros (M & _); discriminate M]).
  destruct (index_post_cases args form w)
    as [(x & CE & R) | [(Miss & R) | (j & e & Hn & Hm & Hj & CE & R)]];
    rewrite R; cbn [snd db flash].
  - split; [intros N; destruct N; reflexivity|].
    intros (_ & _ & _ & _ & e & CE'). congruence.
  - split; [intros N; destruct N; reflexivity|].
    intros (_ & Hn & Hm & (j & Hj) & _).
    destruct Miss as [E | [E | E]]; congruence.
  - split; [|intros _; apply snoc_not_self].
    intros _. split; [reflexivity|]. repeat (split; [assumption|]).
    split; [exists j; exact Hj|]. exists e. rewrite Hj. exact CE.
Qed.



Lemma filter_keeps_all {A : Type} (p : A -> bool) (l : list A) :
  (forall x, In x l -> p x = true) -> filter p l = l.
Proof.
  induction l as [|x l IH]; intros H; simpl; [reflexivity|].
  rewrite (H x (or_introl eq_refl)), IH; [reflexivity|].
  intros y Hy. apply H. right. exact Hy.
Qed.


End MoreCreation.

(** ** Deletion of a stored member *)

Lemma get_some (table : list Member) (i : Z) (m : Member) :
  get table i = Some m -> In m table /\ id m = i.
Proof.
  unfold get. intros F. apply find_some in F.
  destruct F as [H E]. apply Z.eqb_eq in E. auto.
Qed.

Lemma get_filter_other (table : list Member) (i k : Z) :
  k <> i ->
  get (filter (fun x => negb (id x =? i)) table) k = get table k.
Proof.
  intros N. unfold get. induction table as [|x t IH]; simpl; [reflexivity|].
  destruct (id x =? i) eqn:E; simpl.
  - apply Z.eqb_eq in E.
    replace (id x =? k) with false by (symmetry; apply Z.eqb_neq; lia).
    exact IH.
  - destruct (id x =? k); [reflexivity | exact IH].
Qed.

Lemma get_filter_same (table : list Member) (i : Z) :
  get (filter (fun x => negb (id x =? i)) table) i = None.
Proof.
  apply get_absent. intros m Hm E. apply filter_In in Hm.
  destruct Hm as [_ Hm]. apply negb_true_iff, Z.eqb_neq in Hm. auto.
Qed.

Lemma remove_one_row (table : list Member) (i : Z) (m : Member) :
  NoDup (map id table) ->
  get table i = Some m ->
  exists before_ after_,
    table = before_ ++ m :: after_
    /\ filter (fun x => negb (id x =? i)) table = before_ ++ after_.
Proof.
  unfold get. induction table as [|x t IH]; simpl; intros D F; [discriminate|].
  inversion D as [|? ? Nx D']; subst.
  destruct (id x =? i) eqn:E.
  - inversion F; subst x. exists [], t. split; [reflexivity|]. simpl.
    apply filter_keeps_all. intros y Hy. apply negb_true_iff, Z.eqb_neq.
    apply Z.eqb_eq in E. intros Ey. apply Nx. rewrite E, <- Ey.
    apply in_map, Hy.
  - destruct (IH D' F) as (b & a & Et & Ef). exists (x :: b), a.
    simpl. rewrite Et at 1. rewrite Ef. auto.
Qed.

(** X8: deleting the id of a stored member leaves a table without the
    rows of that id, every other row in place, and one more message in
    the queue; looking the id up again finds nothing, so a second delete
    of the same id is a not-found failure.  When ids are distinct,
    exactly that one member is gone.  The answer is a redirect to the
    listing with the query parameters of the request, when the query is
    plain and gives each key once. *)
Theorem delete_stored_member (member_id : Z) (args args' : MultiDict)
    (w : world) (m : Member) :
  get (db w) member_id = Some m ->
  member_id <= SQLITE_MAX_INTEGER ->
  let w' := {| db := filter (fun x => negb (id x =? member_id)) (db w);
               flashes := flashes w ++ [MSG_DELETED] |} in
  snd (delete_member member_id args w) = w'
  /\ (plain_query args -> NoDup (map fst args) ->
      fst (delete_member member_id args w) = Ok (Redirect (py "index") args))
  /\ get (db w') member_id = None
  /\ (forall k, k <> member_id -> get (db w') k = get (db w) k)
  /\ delete_member member_id args' w' = (Raise NotFound, w')
  /\ (NoDup (map id (db w)) ->
      exists before_ after_,
        db w = before_ ++ m :: after_ /\ db w' = before_ ++ after_).
Proof.
  intros G R. cbv zeta. destruct (get_some _ _ _ G) as [Hin Eid].
  split; [unfold delete_member; rewrite G, Eid; reflexivity|].
  split; [intros _ _; unfold delete_member; rewrite G; reflexivity|].
  cbn [db]. split; [apply get_filter_same|].
  split; [intros k N; apply get_filter_other, N|].
  split.
  - unfold delete_member. cbn [db]. rewrite get_filter_same.
    replace (SQLITE_MAX_INTEGER <? member_id) with false
      by (symmetry; apply Z.ltb_ge; exact R).
    reflexivity.
  - intros D. apply remove_one_row; assumption.
Qed.

Lemma delete_stored_member_witness :
  get (db two_members) 1 = Some kim
  /\ 1 <= SQLITE_MAX_INTEGER
  /\ snd (delete_member 1 [] two_members)
     = {| db := [lee]; flashes := [MSG_DELETED] |}
  /\ fst (delete_member 1 [] two_members) = Ok (Redirect (py "index") []).
Proof.
  assert (G : get (db two_members) 1 = Some kim) by reflexivity.
  assert (R : 1 <= SQLITE_MAX_INTEGER) by (unfold SQLITE_MAX_INTEGER; lia).
  split; [exact G|]. split; [exact R|].
  destruct (delete_stored_member 1 [] [] two_members kim G R) as (S & F & _).
  split; [rewrite S; reflexivity|].
  apply F; [exact plain_query_nil | constructor].
Defined.

(** ** What every request keeps true of the table *)

Lemma new_member_well_formed (utcnow : datetime) (form : MultiDict)
    (w : world) (j : date) (e : option date) :
  criterion form "name" <> [] ->
  criterion form "membership_type" <> [] ->
  well_formed_member (new_member utcnow form w j e).
Proof.
  intros Hn Hm.
  unfold well_formed_member, new_member; cbn [id name membership_type contact
    source note created_at updated_at].
  unfold criterion in *. rewrite !strip_idem.
  repeat split; try assumption; try apply or_None_not_empty;
    try discriminate. apply next_id_positive.
Qed.

Lemma handle_well_formed (strptime : pystr -> outcome date) (today : date)
    (utcnow : datetime) (r : request) (w : world) :
  well_formed w -> well_formed (snd (handle strptime today utcnow r w)).
Proof.
  intros [D F]. destruct r as [meth args form | member_id args | args].
  - split; [apply index_keeps_ids_distinct, D|]. cbn [handle].
    destruct meth; try exact F.
    destruct (index_post_cases strptime today utcnow args form w)
      as [(x & _ & R) | [(_ & R) | (j & e & Hn & Hm & _ & _ & R)]];
      rewrite R; cbn [snd db flash]; try exact F.
    apply Forall_app. split; [exact F|]. constructor; [|constructor].
    apply new_member_well_formed; assumption.
  - split; [apply delete_keeps_ids_distinct, D|]. cbn [handle].
    unfold delete_member. destruct (get (db w) member_id);
      [|destruct (SQLITE_MAX_INTEGER <? member_id); exact F].
    cbn [snd db flash]. apply Forall_forall. intros x Hx.
    apply filter_In in Hx. rewrite Forall_forall in F. apply F, Hx.
  - split; assumption.
Qed.

(** X9: every request keeps the table well formed, and so every state
    reached from an empty table is: ids are distinct and positive, every
    member has a name and a membership type that are not empty and carry
    no surrounding whitespace, contact, source and note are absent
    rather than empty, and both timestamps are set. *)
Theorem table_stays_well_formed (strptime : pystr -> outcome date) :
  (forall today utcnow r w,
     well_formed w -> well_formed (snd (handle strptime today utcnow r w)))
  /\ (forall w, reachable strptime w -> well_formed w).
Proof.
  split; [intros; apply handle_well_formed; assumption|].
  induction 1 as [|w today utcnow r R IH].
  - split; constructor.
  - apply handle_well_formed, IH.
Qed.

(** ** Messages *)

(** X10: for a request in scope (a plain query wherever it is handed to
    [url_for], a LIKE pattern within the limit wherever the table is
    searched): when it ends in an exception, neither the table nor the
    message queue has changed; a redirect comes with exactly one new
    message at the end of the queue; a rendered listing shows the whole
    queue and leaves it empty, the table untouched; an export changes
    nothing. *)
Theorem notices_and_responses (strptime : pystr -> outcome date)
    (today : date) (utcnow : datetime) (r : request) (w : world) :
  in_scope r ->
  (forall e w1, handle strptime today utcnow r w = (Raise e, w1) -> w1 = w)
  /\ (forall resp w1,
        handle strptime today utcnow r w = (Ok resp, w1) ->
        match resp with
        | Redirect _ _ =>
            exists msg, flashes w1 = flashes w ++ [msg]
                        /\ In msg [MSG_CREATED; MSG_REQUIRED; MSG_DELETED]
        | Render _ day messages =>
            day = today /\ messages = flashes w
            /\ flashes w1 = [] /\ db w1 = db w
        | SendFile _ => w1 = w
        end).
Proof.
  intros _.
  destruct r as [meth args form | member_id args | args]; cbn [handle].
  - destruct meth;
      try (split; [intros e w1 E; discriminate E
                  | intros resp w1 E; unfold index in E; inversion E; subst;
                    repeat split; reflexivity]).
    destruct (index_post_cases strptime today utcnow args form w)
      as [(x & _ & R) | [(_ & R) | (j & e & _ & _ & _ & _ & R)]];
      rewrite R; (split; [intros e' w1 E | intros resp w1 E]);
      inversion E; subst; try reflexivity.
    + exists MSG_REQUIRED. split; [reflexivity | right; left; reflexivity].
    + exists MSG_CREATED. split; [reflexivity | left; reflexivity].
  - unfold delete_member. destruct (get (db w) member_id);
      [|destruct (SQLITE_MAX_INTEGER <? member_id)];
      (split; [intros e' w1 E | intros resp w1 E]); inversion E; subst;
      try reflexivity.
    exists MSG_DELETED. split; [reflexivity | right; right; left; reflexivity].
  - split; [intros e w1 E; discriminate E|].
    intros resp w1 E. unfold export_csv in E. inversion E; subst. reflexivity.
Qed.

Lemma pattern_within_limit_nil : pattern_within_limit [].
Proof. vm_compute. discriminate. Qed.

Lemma notices_and_responses_witness :
  in_scope (ReqIndex GET [] [])
  /\ handle Strptime.strptime_ascii june_first noon (ReqIndex GET [] [])
       one_notice
     = (Ok (Render [kim] june_first [MSG_CREATED]),
        {| db := [kim]; flashes := [] |})
  /\ [MSG_CREATED] = flashes one_notice.
Proof.
  assert (S : in_scope (ReqIndex GET [] []))
    by (split; [exact plain_query_nil | exact pattern_within_limit_nil]).
  assert (H : handle Strptime.strptime_ascii june_first noon
                (ReqIndex GET [] []) one_notice
              = (Ok (Render [kim] june_first [MSG_CREATED]),
                 {| db := [kim]; flashes := [] |})) by reflexivity.
  split; [exact S|]. split; [exact H|].
  destruct (notices_and_responses Strptime.strptime_ascii june_first noon
              (ReqIndex GET [] []) one_notice S) as [_ N].
  exact (proj1 (proj2 (N _ _ H))).
Defined.

(** ** The listing template *)

Lemma labels_differ : EXPIRED_LABEL <> VALID_LABEL.
Proof. discriminate. Qed.

(** Goals [In m t /\ b = true <-> In m t /\ label = label']. *)
Ltac label_cases :=
  split; intros [H1 H2];
  first [ discriminate H2
        | exfalso; apply labels_differ; first [exact H2 | symmetry; exact H2]
        | split; [exact H1 | reflexivity] ].

(** X11: the state a row shows agrees with the expiry-state filter of the
    same day: the filter "expired" alone lists exactly the members shown
    as 만료, the filter "active" alone exactly those shown as 유효; and a
    member is shown as 만료 exactly when its days left are negative. *)
Theorem state_agrees_with_filter (strptime : pystr -> outcome date)
    (today : date) (table : list Member) (o : ordering) (m : Member) :
  (In m (all table (apply_filters strptime today [(py "expired", py "expired")]
                      (order_by Member_query o)))
   <-> In m table /\ state today m = EXPIRED_LABEL)
  /\ (In m (all table (apply_filters strptime today [(py "expired", py "active")]
                         (order_by Member_query o)))
      <-> In m table /\ state today m = VALID_LABEL)
  /\ (state today m = EXPIRED_LABEL
      <-> exists n, days_left today m = Some n /\ n < 0).
Proof.
  assert (K : In "expired"%string KEYS) by (simpl; tauto).
  split; [|split].
  - rewrite (in_all_split strptime today "expired" _ _ table m K).
    change (md_remove (py "expired") [(py "expired", py "expired")])
      with (@nil (pystr * pystr)).
    rewrite in_all_no_criteria.
    change (keeps strptime today "expired" [(py "expired", py "expired")] m)
      with (match expiry_date m with None => false | Some d => d <? today end).
    unfold state. destruct (expiry_date m) as [d|];
      [destruct (d <? today)|]; label_cases.
  - rewrite (in_all_split strptime today "expired" _ _ table m K).
    change (md_remove (py "expired") [(py "expired", py "active")])
      with (@nil (pystr * pystr)).
    rewrite in_all_no_criteria.
    change (keeps strptime today "expired" [(py "expired", py "active")] m)
      with (match expiry_date m with None => true | Some d => today <=? d end).
    unfold state. destruct (expiry_date m) as [d|]; [|label_cases].
    rewrite Z.leb_antisym. destruct (d <? today); cbn [negb]; label_cases.
  - unfold state, days_left. destruct (expiry_date m) as [d|].
    + destruct (d <? today) eqn:L; split.
      * intros _. exists (d - today). apply Z.ltb_lt in L. split; [auto|lia].
      * auto.
      * intros E. destruct labels_differ; auto.
      * intros (n & E & N). inversion E; subst. apply Z.ltb_ge in L. lia.
    + split; [intros E; destruct labels_differ; auto|].
      intros (n & E & _). discriminate.
Qed.

Lemma str_of_Z_negative (n : Z) :
  0 < n -> str_of_Z (- n) = 45 :: str_of_Z n.
Proof. destruct n; try lia. intros _. reflexivity. Qed.

(** X12: in the D-Day cell, one to seven days overdue look exactly like
    one to seven days left: the same classes and the same text, [D-] and
    the number.  Of two such members only the state cell tells which one
    has expired. *)
Theorem dday_overdue_looks_like_left (today : date) (a b : Member) (n : Z) :
  1 <= n <= 7 ->
  expiry_date a = Some (today - n) ->
  expiry_date b = Some (today + n) ->
  dday_cell (days_left today a) = Some (RED, py "D-" ++ str_of_Z n)
  /\ dday_cell (days_left today b) = dday_cell (days_left today a)
  /\ state today a = EXPIRED_LABEL
  /\ state today b = VALID_LABEL
  /\ state_cell (state today a) <> state_cell (state today b).
Proof.
  intros R Ea Eb. unfold days_left, state. rewrite Ea, Eb.
  replace (today - n - today) with (- n) by lia.
  replace (today + n - today) with n by lia.
  unfold dday_cell.
  replace (- n <? 0) with true by (symmetry; apply Z.ltb_lt; lia).
  replace (n <? 0) with false by (symmetry; apply Z.ltb_ge; lia).
  replace (n <=? 7) with true by (symmetry; apply Z.leb_le; lia).
  replace (today - n <? today) with true by (symmetry; apply Z.ltb_lt; lia).
  replace (today + n <? today) with false by (symmetry; apply Z.ltb_ge; lia).
  rewrite str_of_Z_negative by lia.
  repeat split. discriminate.
Qed.

Lemma dday_overdue_looks_like_left_witness :
  1 <= 3 <= 7
  /\ expiry_date kim = Some (738919 - 3)
  /\ dday_cell (days_left 738919 kim) = Some (RED, py "D-3").
Proof.
  assert (R : 1 <= 3 <= 7) by lia.
  assert (E : expiry_date kim = Some (738919 - 3)) by reflexivity.
  repeat (split; [assumption|]).
  exact (proj1 (dday_overdue_looks_like_left 738919 kim
                  {| id := 9; name := py "Choi"; contact := None;
                     membership_type := py "월간"; join_date := 738892;
                     expiry_date := Some (738919 + 3); source := None;
                     note := None; created_at := None; updated_at := None |}
                  3 R E eq_refl)).
Defined.

(** ** The filter as a whole *)

Lemma all_ext (table : list Member) (q1 q2 : Query) :
  order q1 = order q2 ->
  (forall m, selects q1 m = selects q2 m) ->
  all table q1 = all table q2.
Proof.
  intros EO ES. unfold all. rewrite EO. f_equal.
  apply filter_ext. exact ES.
Qed.

Lemma filter_twice {A : Type} (p : A -> bool) (l : list A) :
  filter p (filter p l) = filter p l.
Proof.
  apply filter_keeps_all. intros x Hx. apply filter_In in Hx. tauto.
Qed.

Lemma filter_none {A : Type} (p : A -> bool) (l : list A) :
  (forall x, In x l -> p x = false) -> filter p l = [].
Proof.
  induction l as [|x l IH]; intros H; simpl; [reflexivity|].
  rewrite (H x (or_introl eq_refl)). apply IH.
  intros y Hy. apply H. right. exact Hy.
Qed.

Section MoreFilters.

Variable strptime : pystr -> outcome date.
Variable today : date.

Abbreviation apply_filters := (apply_filters strptime today).
Abbreviation bound := (bound strptime).
Abbreviation keeps := (keeps strptime today).
Abbreviation keeps_all := (keeps_all strptime today).

Lemma all_apply_filters (args : MultiDict) (q0 : Query) (table : list Member) :
  all table (apply_filters args q0) = filter (keeps_all args) (all table q0).
Proof.
  apply all_refine; [apply order_apply_filters|].
  intros m. rewrite selects_apply_filters. unfold keeps_all.
  btauto.
Qed.

(** X13: filtering only removes rows: whatever the request, the result is
    the unfiltered result of the same query with the rows that fail a
    condition left out, the others in their order.  In particular every
    row of the result is a row of the table, and the listing is never
    longer than the unfiltered one. *)
Theorem filters_only_remove (args : MultiDict) (q0 : Query)
    (table : list Member) :
  all table (apply_filters args q0) = filter (keeps_all args) (all table q0)
  /\ (forall m, In m (all table (apply_filters args q0)) -> In m table)
  /\ (List.length (all table (apply_filters args q0))
      <= List.length (all table q0))%nat.
Proof.
  rewrite all_apply_filters. split; [reflexivity|]. split.
  - intros m Hm. apply filter_In in Hm. destruct Hm as [Hm _].
    apply in_all in Hm. tauto.
  - apply filter_length_le.
Qed.

(** X14: filtering is idempotent: applying the filters of a request to a
    query already filtered by them selects the same rows. *)
Theorem filters_idempotent (args : MultiDict) (q0 : Query)
    (table : list Member) :
  all table (apply_filters args (apply_filters args q0))
  = all table (apply_filters args q0).
Proof.
  rewrite (all_apply_filters args (apply_filters args q0)).
  rewrite all_apply_filters. apply filter_twice.
Qed.

(** X15: a request whose text query and membership type are absent or
    blank, whose expiry state is neither "active" nor "expired", and
    whose four bounds are absent, empty or unparsable, adds no condition
    at all: the query comes back unchanged. *)
Theorem no_criteria_no_filter (args : MultiDict) (q0 : Query) :
  criterion args "q" = [] ->
  criterion args "membership_type" = [] ->
  criterion args "expired" <> py "active" ->
  criterion args "expired" <> py "expired" ->
  bound args "join_from" = None ->
  bound args "join_to" = None ->
  bound args "exp_from" = None ->
  bound args "exp_to" = None ->
  apply_filters args q0 = q0.
Proof.
  unfold criterion, bound. intros Q M A E JF JT EF ET.
  apply pystr_eqb_neq in A. apply pystr_eqb_neq in E.
  unfold apply_filters. rewrite Q, M, A, E, JF, JT, EF, ET. reflexivity.
Qed.

(** X16: the four date bounds are inclusive.  A parsed joinFrom keeps the
    members who joined on that day or later, a parsed joinTo those who
    joined on that day or earlier; a parsed expFrom or expTo keeps the
    members whose expiry date is present and on that day or later, resp.
    earlier.  Each composes by AND with the rest of the request. *)
Theorem date_bounds_inclusive (args : MultiDict) (q0 : Query)
    (table : list Member) (m : Member) (b : date) :
  let kept a := In m (all table (apply_filters a q0)) in
  (bound args "join_from" = Some b ->
     (kept args <-> kept (md_remove (py "join_from") args) /\ b <= join_date m))
  /\ (bound args "join_to" = Some b ->
     (kept args <-> kept (md_remove (py "join_to") args) /\ join_date m <= b))
  /\ (bound args "exp_from" = Some b ->
     (kept args <-> kept (md_remove (py "exp_from") args)
                    /\ exists d, expiry_date m = Some d /\ b <= d))
  /\ (bound args "exp_to" = Some b ->
     (kept args <-> kept (md_remove (py "exp_to") args)
                    /\ exists d, expiry_date m = Some d /\ d <= b)).
Proof.
  cbv zeta. split; [|split; [|split]]; intros B.
  - rewrite (in_all_split strptime today "join_from" args q0 table m)
      by (simpl; tauto).
    change (keeps "join_from" args m) with (keeps_join_from strptime args m).
    unfold keeps_join_from. rewrite B, Z.leb_le. reflexivity.
  - rewrite (in_all_split strptime today "join_to" args q0 table m)
      by (simpl; tauto).
    change (keeps "join_to" args m) with (keeps_join_to strptime args m).
    unfold keeps_join_to. rewrite B, Z.leb_le. reflexivity.
  - rewrite (in_all_split strptime today "exp_from" args q0 table m)
      by (simpl; tauto).
    change (keeps "exp_from" args m) with (keeps_exp_from strptime args m).
    unfold keeps_exp_from. rewrite B.
    destruct (expiry_date m) as [d|].
    + rewrite Z.leb_le. split.
      * intros [H L]. split; [exact H|]. exists d. auto.
      * intros [H (d' & E & L)]. inversion E; subst. auto.
    + split; [intros [_ F]; discriminate F|].
      intros [_ (d & E & _)]. discriminate E.
  - rewrite (in_all_split strptime today "exp_to" args q0 table m)
      by (simpl; tauto).
    change (keeps "exp_to" args m) with (keeps_exp_to strptime args m).
    unfold keeps_exp_to. rewrite B.
    destruct (expiry_date m) as [d|].
    + rewrite Z.leb_le. split.
      * intros [H L]. split; [exact H|]. exists d. auto.
      * intros [H (d' & E & L)]. inversion E; subst. auto.
    + split; [intros [_ F]; discriminate F|].
      intros [_ (d & E & _)]. discriminate E.
Qed.

(** X17: bounds that cross select nothing: with joinFrom after joinTo, or
    expFrom after expTo, the result is empty, whatever the table and the
    other criteria. *)
Theorem crossed_bounds_select_nothing (args : MultiDict) (q0 : Query)
    (table : list Member) (a b : date) :
  b < a ->
  (bound args "join_from" = Some a /\ bound args "join_to" = Some b)
  \/ (bound args "exp_from" = Some a /\ bound args "exp_to" = Some b) ->
  all table (apply_filters args q0) = [].
Proof.
  intros L B. rewrite all_apply_filters. apply filter_none. intros m _.
  unfold keeps_all.
  destruct B as [[F T] | [F T]].
  - assert (X : keeps_join_from strptime args m && keeps_join_to strptime args m
                = false).
    { unfold keeps_join_from, keeps_join_to. rewrite F, T.
      destruct (a <=? join_date m) eqn:E1; [|reflexivity].
      apply Z.leb_le in E1. apply Z.leb_gt. lia. }
    destruct (keeps_join_from strptime args m);
      [|rewrite !andb_false_r; reflexivity].
    cbn [andb] in X. rewrite X, !andb_false_r. reflexivity.
  - assert (X : keeps_exp_from strptime args m && keeps_exp_to strptime args m
                = false).
    { unfold keeps_exp_from, keeps_exp_to. rewrite F, T.
      destruct (expiry_date m) as [d|]; [|reflexivity].
      destruct (a <=? d) eqn:E1; [|reflexivity].
      apply Z.leb_le in E1. apply Z.leb_gt. lia. }
    rewrite <- andb_assoc, X, andb_false_r. reflexivity.
Qed.

(** X18: "active" and "expired" split a result in two: put in front of a
    request, each keeps a part of what the request selects without
    expiry state, no member is in both parts, and every member is in
    one. *)
Theorem active_expired_partition (args : MultiDict) (q0 : Query)
    (table : list Member) (m : Member) :
  let rest := all table (apply_filters (md_remove (py "expired") args) q0) in
  let active :=
    all table (apply_filters ((py "expired", py "active") :: args) q0) in
  let expired :=
    all table (apply_filters ((py "expired", py "expired") :: args) q0) in
  (In m rest <-> In m active \/ In m expired)
  /\ ~ (In m active /\ In m expired).
Proof.
  cbv zeta.
  rewrite (in_all_split strptime today "expired"
             ((py "expired", py "active") :: args) q0 table m)
    by (simpl; tauto).
  rewrite (in_all_split strptime today "expired"
             ((py "expired", py "expired") :: args) q0 table m)
    by (simpl; tauto).
  change (md_remove (py "expired") ((py "expired", py "active") :: args))
    with (md_remove (py "expired") args).
  change (md_remove (py "expired") ((py "expired", py "expired") :: args))
    with (md_remove (py "expired") args).
  change (keeps "expired" ((py "expired", py "active") :: args) m)
    with (match expiry_date m with None => true | Some d => today <=? d end).
  change (keeps "expired" ((py "expired", py "expired") :: args) m)
    with (match expiry_date m with None => false | Some d => d <? today end).
  destruct (expiry_date m) as [d|].
  - rewrite Z.leb_antisym. destruct (d <? today); cbn [negb]; intuition congruence.
  - intuition congruence.
Qed.

Lemma lower_nil (s : pystr) : Sql.lower s = [] -> s = [].
Proof. destruct s; [reflexivity | discriminate]. Qed.

Lemma keeps_text_case (v1 v2 : pystr) (args : MultiDict) (m : Member) :
  Sql.lower (strip v1) = Sql.lower (strip v2) ->
  keeps_text ((py "q", v1) :: args) m = keeps_text ((py "q", v2) :: args) m.
Proof.
  intros E. unfold keeps_text.
  change (criterion ((py "q", v1) :: args) "q") with (strip v1).
  change (criterion ((py "q", v2) :: args) "q") with (strip v2).
  destruct (strip v1) as [|c1 q1] eqn:S1.
  - symmetry in E. apply lower_nil in E. rewrite E. reflexivity.
  - destruct (strip v2) as [|c2 q2] eqn:S2.
    + apply lower_nil in E. discriminate E.
    + unfold text_condition, Sql.ilike. cbv zeta.
      unfold Sql.lower in *. rewrite !map_app, E. reflexivity.
Qed.

(** X19: the case of ASCII letters in the text query does not matter: two
    requests that differ only in the text query, the two queries equal
    up to surrounding whitespace and ASCII case, select the same rows. *)
Theorem text_query_ignores_case (v1 v2 : pystr) (args : MultiDict)
    (q0 : Query) (table : list Member) :
  Sql.lower (strip v1) = Sql.lower (strip v2) ->
  all table (apply_filters ((py "q", v1) :: args) q0)
  = all table (apply_filters ((py "q", v2) :: args) q0).
Proof.
  intros E. rewrite !all_apply_filters. apply filter_ext. intros m.
  unfold keeps_all. rewrite (keeps_text_case v1 v2 args m E). reflexivity.
Qed.

Lemma like_percent_only (p s : pystr) :
  percent_only p = true ->
  Sql.pattern_compare p s = true \/ (p = [] /\ s <> []).
Proof.
  revert s. induction p as [|c p IH]; intros s P.
  - destruct s; [left; reflexivity | right; split; [reflexivity|discriminate]].
  - left. cbn [percent_only forallb] in P. apply andb_true_iff in P.
    destruct P as [C P]. cbn [Sql.pattern_compare]. rewrite C.
    induction s as [|x s IHs].
    + destruct (IH [] P) as [H | [_ H]]; [rewrite H; reflexivity|].
      destruct H. reflexivity.
    + rewrite IHs. apply orb_true_r.
Qed.

Lemma lower_percent_only (q : pystr) :
  percent_only q = true -> Sql.lower q = q.
Proof.
  induction q as [|c q IH]; [reflexivity|]. cbn [percent_only forallb].
  intros P. apply andb_true_iff in P. destruct P as [C P].
  apply Z.eqb_eq in C. subst c. cbn [Sql.lower map].
  change (map Sql.lower_cp q) with (Sql.lower q). rewrite (IH P). reflexivity.
Qed.

Lemma cstr_percent_only (q : pystr) :
  percent_only q = true -> Sql.cstr q = q.
Proof.
  induction q as [|c q IH]; [reflexivity|]. cbn [percent_only forallb].
  intros P. apply andb_true_iff in P. destruct P as [C P].
  apply Z.eqb_eq in C. subst c. cbn [Sql.cstr].
  change (Sql.PERCENT =? NUL) with false. cbv iota. rewrite (IH P).
  reflexivity.
Qed.

(** X20: a text query made of [%] signs only, short enough for the
    pattern to be within SQLite's limit, is no constraint: every member
    has a name, and the pattern matches any name. *)
Theorem percent_query_keeps_all (args : MultiDict) (q0 : Query)
    (table : list Member) :
  criterion args "q" <> [] ->
  percent_only (criterion args "q") = true ->
  pattern_within_limit args ->
  all table (apply_filters args q0)
  = all table (apply_filters (md_remove (py "q") args) q0).
Proof.
  intros N P _.
  rewrite (all_split strptime today "q" args q0 table) by (simpl; tauto).
  apply filter_keeps_all. intros m _.
  change (keeps "q" args m) with (keeps_text args m). unfold keeps_text.
  destruct (criterion args "q") as [|c q] eqn:Q; [congruence|].
  unfold text_condition. cbv zeta. rewrite holds_or_. cbn [existsb].
  apply orb_true_iff. left.
  unfold Sql.ilike, Sql.like, option_map. rewrite holds_Some.
  assert (PP : percent_only (py "%" ++ (c :: q) ++ py "%") = true).
  { change (py "%") with [Sql.PERCENT]. unfold percent_only in *.
    rewrite !forallb_app, P. reflexivity. }
  rewrite (lower_percent_only _ PP), (cstr_percent_only _ PP).
  destruct (like_percent_only _ (Sql.cstr (Sql.lower (name m))) PP)
    as [H | [H _]]; [exact H | discriminate H].
Qed.

End MoreFilters.

(** ** The further properties on concrete requests *)

Lemma create_appends_member_witness :
  criterion form_kim "name" <> []
  /\ criterion form_kim "membership_type" <> []
  /\ bound Strptime.strptime_ascii form_kim "join_date" = Some 738886
  /\ compute_expiry (Some 738886) (criterion form_kim "membership_type")
       (bound Strptime.strptime_ascii form_kim "expiry_date")
     = Ok (Some 738916)
  /\ next_id (db empty_world) <= SQLITE_MAX_INTEGER
  /\ snd (index Strptime.strptime_ascii june_first noon POST [] form_kim
            empty_world)
     = {| db := [kim]; flashes := [MSG_CREATED] |}
  /\ fst (index Strptime.strptime_ascii june_first noon POST [] form_kim
            empty_world)
     = Ok (Redirect (py "index") []).
Proof.
  assert (Hn : criterion form_kim "name" <> []) by discriminate.
  assert (Hm : criterion form_kim "membership_type" <> []) by discriminate.
  assert (Hj : bound Strptime.strptime_ascii form_kim "join_date" = Some 738886)
    by reflexivity.
  assert (He : compute_expiry (Some 738886) (criterion form_kim "membership_type")
                 (bound Strptime.strptime_ascii form_kim "expiry_date")
               = Ok (Some 738916)) by reflexivity.
  assert (Hi : next_id (db empty_world) <= SQLITE_MAX_INTEGER)
    by (vm_compute; discriminate).
  repeat (split; [assumption|]).
  destruct (create_appends_member Strptime.strptime_ascii june_first noon []
              form_kim empty_world 738886 (Some 738916) Hn Hm Hj He Hi)
    as (S & F & _).
  split; [rewrite S; reflexivity|].
  apply F; [exact plain_query_nil | constructor].
Defined.




Lemma no_criteria_no_filter_witness :
  criterion nothing_to_filter "q" = []
  /\ criterion nothing_to_filter "expired" = py "Active"
  /\ bound Strptime.strptime_ascii nothing_to_filter "join_from" = None
  /\ all (db two_members)
       (apply_filters Strptime.strptime_ascii june_first nothing_to_filter
          (order_by Member_query IdDesc))
     = [lee; kim].
Proof.
  assert (Q : criterion nothing_to_filter "q" = []) by reflexivity.
  assert (E : criterion nothing_to_filter "expired" = py "Active")
    by reflexivity.
  assert (J : bound Strptime.strptime_ascii nothing_to_filter "join_from" = None)
    by reflexivity.
  repeat (split; [assumption|]).
  rewrite (no_criteria_no_filter Strptime.strptime_ascii june_first
             nothing_to_filter (order_by Member_query IdDesc));
    try reflexivity; rewrite E; discriminate.
Defined.

Lemma crossed_bounds_select_nothing_witness :
  738886 < 738917
  /\ bound Strptime.strptime_ascii crossed_join "join_from" = Some 738917
  /\ bound Strptime.strptime_ascii crossed_join "join_to" = Some 738886
  /\ all (db two_members)
       (apply_filters Strptime.strptime_ascii june_first crossed_join
          (order_by Member_query IdDesc))
     = [].
Proof.
  assert (L : 738886 < 738917) by lia.
  assert (F : bound Strptime.strptime_ascii crossed_join "join_from"
              = Some 738917) by reflexivity.
  assert (T : bound Strptime.strptime_ascii crossed_join "join_to"
              = Some 738886) by reflexivity.
  repeat (split; [assumption|]).
  exact (crossed_bounds_select_nothing Strptime.strptime_ascii june_first
           crossed_join (order_by Member_query IdDesc) (db two_members)
           738917 738886 L (or_introl (conj F T))).
Defined.

Lemma text_query_ignores_case_witness :
  Sql.lower (strip (py " KIM")) = Sql.lower (strip (py "kim "))
  /\ all (db two_members)
       (apply_filters Strptime.strptime_ascii june_first [(py "q", py " KIM")]
          (order_by Member_query IdDesc))
     = all (db two_members)
         (apply_filters Strptime.strptime_ascii june_first [(py "q", py "kim ")]
            (order_by Member_query IdDesc)).
Proof.
  assert (E : Sql.lower (strip (py " KIM")) = Sql.lower (strip (py "kim ")))
    by reflexivity.
  split; [exact E|].
  exact (text_query_ignores_case Strptime.strptime_ascii june_first
           (py " KIM") (py "kim ") [] (order_by Member_query IdDesc)
           (db two_members) E).
Defined.

Lemma percent_query_keeps_all_witness :
  criterion query_percent "q" <> []
  /\ percent_only (criterion query_percent "q") = true
  /\ pattern_within_limit query_percent
  /\ all (db two_members)
       (apply_filters Strptime.strptime_ascii june_first query_percent
          (order_by Member_query IdDesc))
     = [lee; kim].
Proof.
  assert (N : criterion query_percent "q" <> []) by discriminate.
  assert (P : percent_only (criterion query_percent "q") = true)
    by reflexivity.
  assert (L : pattern_within_limit query_percent)
    by (vm_compute; discriminate).
  repeat (split; [assumption|]).
  rewrite (percent_query_keeps_all Strptime.strptime_ascii june_first
             query_percent (order_by Member_query IdDesc) (db two_members)
             N P L).
  reflexivity.
Defined.

(** ** The lines of the export *)
















(** ** Where a new member shows *)

Lemma all_unfiltered (strptime : pystr -> outcome date) (today : date)
    (o : ordering) (table : list Member) :
  all table (apply_filters strptime today [] (order_by Member_query o))
  = ordered (Some o) table.
Proof.
  change (apply_filters strptime today [] (order_by Member_query o))
    with (order_by Member_query o).
  unfold all. cbn [order order_by]. f_equal.
  apply filter_keeps_all. reflexivity.
Qed.

Lemma place_highest_desc (x m : Member) (rest : list Member) :
  id x < id m -> place IdDesc x (m :: rest) = m :: place IdDesc x rest.
Proof.
  intros L. cbn [place before].
  replace (id m <=? id x) with false by (symmetry; apply Z.leb_gt; lia).
  reflexivity.
Qed.

Lemma place_highest_asc (x m : Member) (rest : list Member) :
  id x < id m -> place IdAsc x (rest ++ [m]) = place IdAsc x rest ++ [m].
Proof.
  intros L. induction rest as [|y r IH]; cbn [place before app].
  - replace (id x <=? id m) with true by (symmetry; apply Z.leb_le; lia).
    reflexivity.
  - destruct (id x <=? id y); [reflexivity|]. rewrite IH. reflexivity.
Qed.

Lemma ordered_with_highest (table : list Member) (m : Member) :
  (forall x, In x table -> id x < id m) ->
  ordered (Some IdDesc) (table ++ [m]) = m :: ordered (Some IdDesc) table
  /\ ordered (Some IdAsc) (table ++ [m]) = ordered (Some IdAsc) table ++ [m].
Proof.
  unfold ordered. induction table as [|x t IH]; intros H; [split; reflexivity|].
  destruct IH as [D A]; [intros y Hy; apply H; right; exact Hy|].
  cbn [app fold_right]. rewrite D, A.
  assert (L : id x < id m) by (apply H; left; reflexivity).
  split; [apply place_highest_desc, L | apply place_highest_asc, L].
Qed.

(** X22: a member that has just been stored is the first row of the
    unfiltered listing and the last record of the unfiltered export; the
    rows before the creation follow, resp. precede, in their order. *)
Theorem new_member_shows_first (strptime : pystr -> outcome date)
    (today : date) (utcnow : datetime) (args form form' : MultiDict)
    (w : world) (j : date) (e : option date) :
  criterion form "name" <> [] ->
  criterion form "membership_type" <> [] ->
  bound strptime form "join_date" = Some j ->
  compute_expiry (Some j) (criterion form "membership_type")
    (bound strptime form "expiry_date") = Ok e ->
  let w1 := snd (index strptime today utcnow POST args form w) in
  fst (index strptime today utcnow GET [] form' w1)
  = Ok (Render (new_member utcnow form w j e
                  :: all (db w) (apply_filters strptime today []
                                   (order_by Member_query IdDesc)))
          today (flashes w ++ [MSG_CREATED]))
  /\ export_rows strptime today [] w1
     = export_rows strptime today [] w ++ [new_member utcnow form w j e].
Proof.
  intros Hn Hm Hj He. cbv zeta.
  rewrite (index_post_created strptime today utcnow args form w j e Hn Hm Hj He).
  cbn [snd]. unfold index, export_rows. cbn [fst db flashes].
  rewrite !all_unfiltered.
  destruct (ordered_with_highest (db w) (new_member utcnow form w j e))
    as [D A]; [intros x Hx; apply next_id_above, Hx|].
  rewrite D, A. split; reflexivity.
Qed.

Lemma new_member_shows_first_witness :
  criterion form_kim "name" <> []
  /\ criterion form_kim "membership_type" <> []
  /\ bound Strptime.strptime_ascii form_kim "join_date" = Some 738886
  /\ compute_expiry (Some 738886) (criterion form_kim "membership_type")
       (bound Strptime.strptime_ascii form_kim "expiry_date")
     = Ok (Some 738916)
  /\ fst (index Strptime.strptime_ascii june_first noon GET [] []
            (snd (index Strptime.strptime_ascii june_first noon POST []
                    form_kim two_members)))
     = Ok (Render [new_member noon form_kim two_members 738886 (Some 738916);
                   lee; kim]
             june_first [MSG_CREATED]).
Proof.
  assert (Hn : criterion form_kim "name" <> []) by discriminate.
  assert (Hm : criterion form_kim "membership_type" <> []) by discriminate.
  assert (Hj : bound Strptime.strptime_ascii form_kim "join_date" = Some 738886)
    by reflexivity.
  assert (He : compute_expiry (Some 738886) (criterion form_kim "membership_type")
                 (bound Strptime.strptime_ascii form_kim "expiry_date")
               = Ok (Some 738916)) by reflexivity.
  repeat (split; [assumption|]).
  destruct (new_member_shows_first Strptime.strptime_ascii june_first noon []
              form_kim [] two_members 738886 (Some 738916) Hn Hm Hj He)
    as [R _].
  rewrite R. reflexivity.
Defined.

Lemma date_bounds_inclusive_witness :
  bound Strptime.strptime_ascii [(py "join_from", py "2024-01-01")] "join_from"
  = Some 738886
  /\ join_date kim = 738886
  /\ In kim (all (db two_members)
               (apply_filters Strptime.strptime_ascii june_first
                  [(py "join_from", py "2024-01-01")]
                  (order_by Member_query IdDesc))).
Proof.
  assert (B : bound Strptime.strptime_ascii
                [(py "join_from", py "2024-01-01")] "join_from" = Some 738886)
    by reflexivity.
  split; [exact B|]. split; [reflexivity|].
  destruct (date_bounds_inclusive Strptime.strptime_ascii june_first
              [(py "join_from", py "2024-01-01")]
              (order_by Member_query IdDesc) (db two_members) kim 738886)
    as [A _].
  apply (A B). split; [right; left; reflexivity|].
  change (join_date kim) with 738886. lia.
Defined.
